(** * bench_iterated_f: the benchmark sweep and its LaTeX report

    A shallow embedding of [tools/bench_iterated_f.py].  Python integers are
    [Z], Python floats are the kernel's binary64 floats, [str] is [string]
    (a byte string: the one non-ASCII character of the script, the micro
    sign, is its two UTF-8 bytes), dictionaries with string keys are [gmap]s
    or, where Python keeps an order, association lists.  The script's
    effects (prints, the subprocess, the file system, exceptions) are threaded
    through a small state-and-exception monad [M]. *)

From Stdlib Require Import ZArith Ascii String PrimFloat SpecFloat FloatOps.
From stdpp Require Import base tactics option list strings pretty gmap sorting.

Local Open Scope Z_scope.
Local Open Scope string_scope.
#[local] Set Warnings "-register-all,-inexact-float".

(** ** Python values the script handles *)

(** [str(n)] of a Python [int] is its decimal numeral. *)
Definition str_int (n : Z) : string := pretty n.

(** A [pathlib.Path], as the list of its components from the file-system
    root; [p / name] appends one component (a name without separators). *)
Definition path := list string.

Definition path_join (p : path) (name : string) : path := (p ++ [name])%list.
Infix "//" := path_join (at level 40, left associativity).

(** [Path.parent]. *)
Definition parent (p : path) : path := removelast p.

(** [str(p)]. *)
Definition path_str (p : path) : string := "/" +:+ String.concat "/" p.

(** [s.startswith(prefix)]. *)
Definition startswith (s prefix : string) : bool := String.prefix prefix s.

(** What [json.load] builds: dictionaries keep their items in order. *)
Inductive json : Type :=
  | JNull
  | JBool (b : bool)
  | JInt (n : Z)
  | JFloat (f : float)
  | JStr (s : string)
  | JList (items : list json)
  | JDict (items : list (string * json)).

(** The exceptions that occur in the script. *)
Inductive exn : Type :=
  | KeyError (key : string)
  | JSONDecodeError (msg : string)
  | TypeError (msg : string)
  | OverflowError (msg : string)
  | IndexError (msg : string)
  | FileNotFoundError (p : path)
  | NotADirectoryError (p : path)
  | IsADirectoryError (p : path).

(** [str(e)] as it appears in the script's diagnostics: a [KeyError] prints
    the [repr] of its key. *)
Definition exn_str (e : exn) : string :=
  match e with
  | KeyError key => "'" +:+ key +:+ "'"
  | JSONDecodeError msg | TypeError msg | OverflowError msg | IndexError msg => msg
  | FileNotFoundError p | NotADirectoryError p | IsADirectoryError p => path_str p
  end.

Inductive outcome (A : Type) : Type :=
  | Return (a : A)
  | Raise (e : exn).
Arguments Return {A} a.
Arguments Raise {A} e.

(** Items of a dictionary, looked up by key. *)
Fixpoint assoc {A : Type} (key : string) (items : list (string * A)) : option A :=
  match items with
  | [] => None
  | (k, v) :: rest => if decide (k = key) then Some v else assoc key rest
  end.

Definition type_name (v : json) : string :=
  match v with
  | JNull => "NoneType"
  | JBool _ => "bool"
  | JInt _ => "int"
  | JFloat _ => "float"
  | JStr _ => "str"
  | JList _ => "list"
  | JDict _ => "dict"
  end.

(** [v[key]] for a string [key]: only a dictionary can be subscripted by a
    string, and a missing key is a [KeyError]. *)
Definition getitem (v : json) (key : string) : outcome json :=
  match v with
  | JDict items =>
      match assoc key items with
      | Some x => Return x
      | None => Raise (KeyError key)
      end
  | JList _ => Raise (TypeError "list indices must be integers or slices, not str")
  | JStr _ => Raise (TypeError "string indices must be integers, not 'str'")
  | _ => Raise (TypeError ("'" +:+ type_name v +:+ "' object is not subscriptable"))
  end.

(** ** Floating point *)

(** [a / b] of two Python integers, [b > 0]: the quotient rounded once to
    the nearest binary64 (ties to even), [OverflowError] past the largest
    float.  The quotient is taken with a sticky bit at 66 bits or more, which
    rounds to the same float as the exact quotient. *)
Definition int_truediv (a b : Z) : outcome float :=
  let k := Z.max 0 (66 + Z.log2 b - Z.log2 (Z.abs a)) in
  let q := (Z.abs a * 2 ^ k) / b in
  let r := (Z.abs a * 2 ^ k) mod b in
  let m := 2 * q + (if decide (r = 0) then 0 else 1) in
  let x := binary_normalize prec emax (if decide (a < 0) then - m else m) (- k - 1) false in
  match x with
  | S754_infinity _ => Raise (OverflowError "integer division result too large for a float")
  | _ => Return (SF2Prim x)
  end.

(** [v / b] for a decoded JSON value [v] and a positive integer [b]. *)
Definition truediv (v : json) (b : Z) : outcome float :=
  match v with
  | JInt n => int_truediv n b
  | JBool t => int_truediv (if t then 1 else 0) b
  | JFloat f => Return (f / SF2Prim (binary_normalize prec emax b 0 false))%float
  | _ => Raise (TypeError ("unsupported operand type(s) for /: '" +:+ type_name v +:+ "' and 'int'"))
  end.

(** [n] written with at least [width] digits. *)
Definition zero_pad (width : nat) (s : string) : string :=
  String.concat "" (replicate (width - String.length s) "0") +:+ s.

(** [format(x, ".<digits>f")]: the decimal expansion of the exact value of
    [x], rounded half to even at [digits] places. *)
Definition format_fixed (digits : nat) (x : float) : string :=
  let render (neg : bool) (n : Z) :=
    (if neg then "-" else "") +:+ str_int (n / 10 ^ Z.of_nat digits) +:+ "."
      +:+ zero_pad digits (str_int (n mod 10 ^ Z.of_nat digits)) in
  match Prim2SF x with
  | S754_nan => "nan"
  | S754_infinity neg => if neg then "-inf" else "inf"
  | S754_zero neg => render neg 0
  | S754_finite neg m e =>
      let num := Z.pos m * 10 ^ Z.of_nat digits * 2 ^ Z.max 0 e in
      let den := 2 ^ Z.max 0 (- e) in
      let q := num / den in
      let r := num mod den in
      render neg (if decide (2 * r < den) then q
                  else if decide (den < 2 * r) then q + 1
                  else if Z.even q then q else q + 1)
  end.

(** ** Records of the script *)

(** Configuration for a single benchmark run. *)
Record BenchConfig : Type := { lanes : Z; iterations : Z }.

(** Results from a benchmark run. *)
Record BenchResult : Type := {
  config : BenchConfig;
  witness_time_ms : float;
  proof_time_ms : float;
  verify_time_ms : float
}.

(** Benchmark configurations to run. *)
Definition BENCH_CONFIGS : list BenchConfig := [
  (* 1 parallel f, iterations from 2^13 to 2^17 *)
  {| lanes := 1; iterations := 2 ^ 13 |};
  {| lanes := 1; iterations := 2 ^ 14 |};
  {| lanes := 1; iterations := 2 ^ 15 |};
  {| lanes := 1; iterations := 2 ^ 16 |};
  {| lanes := 1; iterations := 2 ^ 17 |};
  (* 4 parallel f, iterations from 2^11 to 2^15 *)
  {| lanes := 4; iterations := 2 ^ 11 |};
  {| lanes := 4; iterations := 2 ^ 12 |};
  {| lanes := 4; iterations := 2 ^ 13 |};
  {| lanes := 4; iterations := 2 ^ 14 |};
  {| lanes := 4; iterations := 2 ^ 15 |};
  (* 16 parallel f, iterations from 2^9 to 2^13 *)
  {| lanes := 16; iterations := 2 ^ 9 |};
  {| lanes := 16; iterations := 2 ^ 10 |};
  {| lanes := 16; iterations := 2 ^ 11 |};
  {| lanes := 16; iterations := 2 ^ 12 |};
  {| lanes := 16; iterations := 2 ^ 13 |}
].

(** [str(config)] of the named tuple. *)
Definition config_str (c : BenchConfig) : string :=
  "BenchConfig(lanes=" +:+ str_int (lanes c) +:+ ", iterations="
    +:+ str_int (iterations c) +:+ ")".

(** ** The world the script runs in *)

(** A regular file is represented by what [json.load] makes of its text:
    a decoding error with its message, or the decoded value. *)
Inductive file_data : Type :=
  | Unparseable (msg : string)
  | Document (v : json).

(** A directory lists its entries in the order [iterdir] yields them. *)
Inductive node : Type :=
  | File (data : file_data)
  | Dir (entries : list (string * node)).

Definition is_dir (n : node) : bool :=
  match n with Dir _ => true | File _ => false end.

Fixpoint lookup_path (n : node) (p : path) : option node :=
  match p with
  | [] => Some n
  | name :: p' =>
      match n with
      | Dir entries =>
          match assoc name entries with
          | Some child => lookup_path child p'
          | None => None
          end
      | File _ => None
      end
  end.

(** What [subprocess.run(..., capture_output=True, text=True)] returns. *)
Record CompletedProcess : Type := {
  returncode : Z;
  stdout : string;
  stderr : string
}.

(** What the script does to the outside, in order. *)
Inductive event : Type :=
  | Stdout (line : string)
  | Stderr (line : string)
  | SubprocessRun (argv : list string) (cwd : path) (env : gmap string string)
      (status : Z)
  | WriteText (p : path) (text : string).

Record World : Type := {
  fs : node;
  environ : gmap string string;
  trace : list event
}.

(** What the script takes from its host: where it is installed
    ([__file__]) and the external benchmark command, which is given the
    argument vector, working directory and environment, and may rewrite
    the file system.  The command is taken to start and to end: a command
    that cannot be launched, or that never returns, is outside the model. *)
Class Host : Type := {
  script_file : path;
  subprocess_run :
    list string -> path -> gmap string string -> node -> CompletedProcess * node
}.

(** ** The monad of the script: state and exceptions *)

Definition M (A : Type) : Type := World -> outcome A * World.

#[global] Instance M_ret : MRet M := fun A a w => (Return a, w).
#[global] Instance M_bind : MBind M := fun A B f m w =>
  match m w with
  | (Return a, w') => f a w'
  | (Raise e, w') => (Raise e, w')
  end.

Definition lift {A : Type} (r : outcome A) : M A := fun w => (r, w).

(** [try: body except ...: handler]; a handler of [None] does not catch. *)
Definition try_except {A : Type} (body : M A) (handler : exn -> option (M A)) : M A :=
  fun w =>
    match body w with
    | (Return a, w') => (Return a, w')
    | (Raise e, w') =>
        match handler e with
        | Some h => h w'
        | None => (Raise e, w')
        end
    end.

Definition emit (ev : event) : M unit := fun w =>
  (Return tt, {| fs := fs w; environ := environ w; trace := (trace w ++ [ev])%list |}).

(** [print(line)] and [print(line, file=sys.stderr)]. *)
Definition print (line : string) : M unit := emit (Stdout line).
Definition eprint (line : string) : M unit := emit (Stderr line).

(** [os.environ.copy()]. *)
Definition os_environ_copy : M (gmap string string) := fun w => (Return (environ w), w).

(** [p.exists()]. *)
Definition path_exists (p : path) : M bool := fun w =>
  (Return (bool_decide (is_Some (lookup_path (fs w) p))), w).

(** [p.iterdir()]. *)
Definition iterdir (p : path) : M (list (string * node)) := fun w =>
  match lookup_path (fs w) p with
  | Some (Dir entries) => (Return entries, w)
  | Some (File _) => (Raise (NotADirectoryError p), w)
  | None => (Raise (FileNotFoundError p), w)
  end.

(** [with open(p) as f: json.load(f)]. *)
Definition json_load (p : path) : M json := fun w =>
  match lookup_path (fs w) p with
  | Some (File (Document v)) => (Return v, w)
  | Some (File (Unparseable msg)) => (Raise (JSONDecodeError msg), w)
  | Some (Dir _) => (Raise (IsADirectoryError p), w)
  | None => (Raise (FileNotFoundError p), w)
  end.

(** [subprocess.run(argv, cwd=cwd, env=env, capture_output=True, text=True)]. *)
Definition run_subprocess `{Host} (argv : list string) (cwd : path)
    (env : gmap string string) : M CompletedProcess := fun w =>
  let '(result, fs') := subprocess_run argv cwd env (fs w) in
  (Return result,
   {| fs := fs'; environ := environ w;
      trace := (trace w ++ [SubprocessRun argv cwd env (returncode result)])%list |}).

(** [p.write_text(text)]: the file written is recorded in the trace (the
    script ends without reading it back). *)
Definition write_text (p : path) (text : string) : M unit := emit (WriteText p text).

(** ** The script's functions *)

(** Get the workspace root directory. *)
Definition get_workspace_root `{Host} : path :=
  let script_dir := parent script_file in
  parent script_dir.

Definition BENCH_COMMAND : list string :=
  ["cargo"; "bench"; "-p"; "binius-examples"; "--bench"; "iterated_f"; "--"; "--noplot"].

(** Run a single benchmark configuration. *)
Definition run_benchmark `{Host} (c : BenchConfig) : M bool :=
  let workspace := get_workspace_root in
  env ← os_environ_copy;
  let env := <["ITERATIONS" := str_int (iterations c)]> env in
  let env := <["LANES" := str_int (lanes c)]> env in
  let env := <["RUSTFLAGS" := default "" (env !! "RUSTFLAGS") +:+ " -C target-cpu=native"]> env in
  print ("Running benchmark: lanes=" +:+ str_int (lanes c) +:+ ", iterations="
           +:+ str_int (iterations c));;
  result ← run_subprocess BENCH_COMMAND workspace env;
  if decide (returncode result ≠ 0) then
    eprint ("Benchmark failed: " +:+ stderr result);;
    mret false
  else
    mret true.

(** The prefix a benchmark directory's name must start with. *)
Definition dir_prefix (c : BenchConfig) : string :=
  if decide (lanes c = 1) then
    "iterations_" +:+ str_int (iterations c) +:+ "_"
  else
    "iterations_" +:+ str_int (iterations c) +:+ "_lanes_" +:+ str_int (lanes c) +:+ "_".

(** The loop over [criterion_dir.iterdir()]: the first entry that is a
    directory and whose name starts with [prefix]. *)
Fixpoint first_match (dir : path) (prefix : string) (entries : list (string * node))
    : option path :=
  match entries with
  | [] => None
  | (name, n) :: rest =>
      if is_dir n && startswith name prefix then Some (dir // name)
      else first_match dir prefix rest
  end.

(** Find the criterion benchmark directory for a given configuration. *)
Definition find_benchmark_dir (workspace : path) (phase : string) (c : BenchConfig)
    : M (option path) :=
  let criterion_dir := workspace // "target" // "criterion" // ("iterated_f_" +:+ phase) in
  found ← path_exists criterion_dir;
  if negb found then mret None
  else
    (* Look for matching benchmark directory *)
    let prefix := dir_prefix c in
    entries ← iterdir criterion_dir;
    mret (first_match criterion_dir prefix entries).

(** Read the mean time in milliseconds from a benchmark directory. *)
Definition read_benchmark_time (bench_dir : path) : M (option float) :=
  let estimates_file := bench_dir // "new" // "estimates.json" in
  found ← path_exists estimates_file;
  if negb found then mret None
  else
    try_except
      (data ← json_load estimates_file;
       (* Time is in nanoseconds, convert to milliseconds *)
       mean ← lift (getitem data "mean");
       estimate ← lift (getitem mean "point_estimate");
       time_ms ← lift (truediv estimate 1000000);
       mret (Some time_ms))
      (fun e =>
         match e with
         | JSONDecodeError _ | KeyError _ =>
             Some (eprint ("Error reading " +:+ path_str estimates_file +:+ ": " +:+ exn_str e);;
                   mret None)
         | _ => None
         end).

Definition PHASES : list string :=
  ["witness_generation"; "proof_generation"; "proof_verification"].

(** The loop of [collect_results] over the phases: [None] when the loop
    returned absent, the timings read otherwise. *)
Fixpoint collect_phases (workspace : path) (c : BenchConfig) (phases : list string)
    (times : list float) : M (option (list float)) :=
  match phases with
  | [] => mret (Some times)
  | phase :: rest =>
      bench_dir ← find_benchmark_dir workspace phase c;
      match bench_dir with
      | None =>
          print ("Warning: No benchmark dir found for " +:+ phase +:+ " with config "
                   +:+ config_str c);;
          mret None
      | Some bench_dir =>
          time_ms ← read_benchmark_time bench_dir;
          match time_ms with
          | None => mret None
          | Some time_ms => collect_phases workspace c rest (times ++ [time_ms])%list
          end
      end
  end.

(** [times[i]]. *)
Definition index (times : list float) (i : nat) : M float :=
  match times !! i with
  | Some t => mret t
  | None => lift (Raise (IndexError "list index out of range"))
  end.

(** Collect benchmark results for a configuration. *)
Definition collect_results (workspace : path) (c : BenchConfig) : M (option BenchResult) :=
  times ← collect_phases workspace c PHASES [];
  match times with
  | None => mret None
  | Some times =>
      t0 ← index times 0;
      t1 ← index times 1;
      t2 ← index times 2;
      mret (Some {| config := c; witness_time_ms := t0; proof_time_ms := t1;
                    verify_time_ms := t2 |})
  end.

(** The micro sign, in UTF-8. *)
Definition micro : string := String (ascii_of_nat 194) (String (ascii_of_nat 181) "").

(** Format time in appropriate units. *)
Definition format_time (time_ms : float) : string :=
  if (time_ms <? 1)%float then
    format_fixed 1 (time_ms * 1000)%float +:+ " " +:+ micro +:+ "s"
  else if (time_ms <? 1000)%float then
    format_fixed 1 time_ms +:+ " ms"
  else
    format_fixed 2 (time_ms / 1000)%float +:+ " s".

(** Format a number as a power of two if possible.  [int(math.log2(n))] is
    only evaluated at an exact power of two, where the logarithm is exact:
    it is the binary logarithm of the integer. *)
Definition format_power_of_two (n : Z) : string :=
  if decide (n > 0 ∧ Z.land n (n - 1) = 0) then
    let exp := Z.log2 n in
    "$2^{" +:+ str_int exp +:+ "}$"
  else str_int n.

Definition TABLE_HEADER : list string := [
  "\begin{table}[htbp]";
  "\centering";
  "\caption{Iterated f benchmark results}";
  "\label{tab:iterated-f-benchmark}";
  "\begin{tabular}{rrrrrr}";
  "\toprule";
  "Lanes & Iterations & Total Ops & Witness Gen & Proof Gen & Verification \\";
  "\midrule"
].

Definition TABLE_FOOTER : list string := [
  "\bottomrule";
  "\end{tabular}";
  "\end{table}"
].

(** The line of one result. *)
Definition table_row (result : BenchResult) : string :=
  let lanes := lanes (config result) in
  let iters := iterations (config result) in
  let total_ops := lanes * iters in
  str_int lanes +:+ " & " +:+ format_power_of_two iters +:+ " & "
    +:+ format_power_of_two total_ops +:+ " & "
    +:+ format_time (witness_time_ms result) +:+ " & "
    +:+ format_time (proof_time_ms result) +:+ " & "
    +:+ format_time (verify_time_ms result) +:+ " \\".

(** The loop of [generate_latex_table] over the results, with its two
    variables [current_lanes] and [lines]. *)
Fixpoint table_loop (results : list BenchResult) (current_lanes : option Z)
    (lines : list string) : list string :=
  match results with
  | [] => lines
  | result :: rest =>
      let lanes := lanes (config result) in
      (* Add horizontal line between lane groups *)
      let lines :=
        match current_lanes with
        | Some current => if decide (lanes ≠ current) then (lines ++ ["\midrule"])%list else lines
        | None => lines
        end in
      let current_lanes := Some lanes in
      let lines := (lines ++ [table_row result])%list in
      table_loop rest current_lanes lines
  end.

Definition newline : string := String (ascii_of_nat 10) "".

(** The lines of the table, before they are joined. *)
Definition table_lines (results : list BenchResult) : list string :=
  let lines := TABLE_HEADER in
  let lines := table_loop results None lines in
  (lines ++ TABLE_FOOTER)%list.

(** Generate a LaTeX table from benchmark results. *)
Definition generate_latex_table (results : list BenchResult) : string :=
  String.concat newline (table_lines results).

(** The parsed command line. *)
Record Args : Type := { output : option path; skip_run : bool }.

(** The loop of [main] that runs the benchmarks: [Some 1] when [main]
    returned from inside it. *)
Fixpoint run_benchmarks `{Host} (configs : list BenchConfig) : M (option Z) :=
  match configs with
  | [] => mret None
  | c :: rest =>
      ok ← run_benchmark c;
      if negb ok then
        eprint ("Failed to run benchmark for " +:+ config_str c);;
        mret (Some 1)
      else run_benchmarks rest
  end.

(** The loop of [main] that collects the results, with its variable
    [results]. *)
Fixpoint collect_all (workspace : path) (configs : list BenchConfig)
    (results : list BenchResult) : M (list BenchResult) :=
  match configs with
  | [] => mret results
  | c :: rest =>
      result ← collect_results workspace c;
      match result with
      | Some result =>
          print ("  " +:+ str_int (lanes c) +:+ " lanes, " +:+ str_int (iterations c)
                   +:+ " iters: witness=" +:+ format_time (witness_time_ms result)
                   +:+ ", proof=" +:+ format_time (proof_time_ms result)
                   +:+ ", verify=" +:+ format_time (verify_time_ms result));;
          collect_all workspace rest (results ++ [result])%list
      | None =>
          print ("  " +:+ str_int (lanes c) +:+ " lanes, " +:+ str_int (iterations c)
                   +:+ " iters: NO DATA");;
          collect_all workspace rest results
      end
  end.

Definition banner : string := String.concat "" (replicate 60 "=").

(** What [main] does once the benchmarks have run. *)
Definition collect_and_report `{Host} (args : Args) (workspace : path) : M Z :=
  (* Collect results *)
  print (newline +:+ "Collecting results...");;
  results ← collect_all workspace BENCH_CONFIGS [];
  match results with
  | [] =>
      eprint "No benchmark results found!";;
      mret 1
  | _ =>
      (* Generate LaTeX table *)
      let latex := generate_latex_table results in
      match output args with
      | Some file =>
          write_text file latex;;
          print (newline +:+ "LaTeX table written to " +:+ path_str file)
      | None =>
          print (newline +:+ banner);;
          print "LaTeX Table:";;
          print banner;;
          print latex
      end;;
      mret 0
  end.

Definition main `{Host} (args : Args) : M Z :=
  let workspace := get_workspace_root in
  (* Run benchmarks (unless skipped) *)
  returned ←
    (if negb (skip_run args) then
       print "Running benchmarks...";;
       run_benchmarks BENCH_CONFIGS
     else mret None);
  match returned with
  | Some code => mret code
  | None => collect_and_report args workspace
  end.

(** [sys.exit(main())]: the status the process ends with.  An exception
    that leaves [main] ends the interpreter with status 1. *)
Definition exit_status (r : outcome Z) : Z :=
  match r with
  | Return code => code
  | Raise _ => 1
  end.

(** Running the script from a world: its exit status and the world it
    leaves. *)
Definition run_script `{Host} (args : Args) (w : World) : Z * World :=
  let '(r, w') := main args w in (exit_status r, w').

(** * The vocabulary of the properties *)

(** ** Numbers *)

(** The configurations of one parallelism tier, in the order of the sweep. *)
Definition tier (t : Z) : list BenchConfig :=
  filter (fun c => lanes c = t) BENCH_CONFIGS.

Definition total_ops (c : BenchConfig) : Z := lanes c * iterations c.

(** An exact power of two. *)
Definition is_power_of_two (n : Z) : Prop := exists k, 0 <= k /\ n = 2 ^ k.

(** ** Files and outcomes *)

Definition world_of (tree : node) : World :=
  {| fs := tree; environ := ∅; trace := [] |}.

(** The result root of a phase. *)
Definition criterion_root (workspace : path) (phase : string) : path :=
  workspace // "target" // "criterion" // ("iterated_f_" +:+ phase).

(** An entry that the scan accepts: a directory whose name starts with the
    prefix. *)
Definition matches (prefix : string) (entry : string * node) : Prop :=
  is_dir entry.2 = true /\ startswith entry.1 prefix = true.

(** The statistics file of a benchmark directory. *)
Definition estimates_path (bench_dir : path) : path :=
  bench_dir // "new" // "estimates.json".

(** The world after [line] was printed to the error stream. *)
Definition with_stderr (w : World) (line : string) : World :=
  {| fs := fs w; environ := environ w; trace := (trace w ++ [Stderr line])%list |}.

(** The diagnostic of [read_benchmark_time] for the exception [e]. *)
Definition read_error (bench_dir : path) (e : exn) : string :=
  "Error reading " +:+ path_str (estimates_path bench_dir) +:+ ": " +:+ exn_str e.

Definition is_dict (v : json) : bool :=
  match v with JDict _ => true | _ => false end.


(** What one phase yields for a configuration: the look-up of its directory
    followed by the reading of its timing. *)
Definition phase_time (workspace : path) (c : BenchConfig) (phase : string)
    : M (option float) :=
  bench_dir ← find_benchmark_dir workspace phase c;
  match bench_dir with
  | None => mret None
  | Some bench_dir => read_benchmark_time bench_dir
  end.

(** What collecting one configuration comes to on a file system. *)
Definition outcome_of (workspace : path) (tree : node) (c : BenchConfig)
    : outcome (option BenchResult) :=
  (collect_results workspace c (world_of tree)).1.

(** The results gathered from the outcomes of the configurations, in
    order: an absent one is skipped, an exception ends the gathering. *)
Fixpoint gather (outcomes : list (outcome (option BenchResult)))
    (results : list BenchResult) : outcome (list BenchResult) :=
  match outcomes with
  | [] => Return results
  | Return (Some r) :: rest => gather rest (results ++ [r])%list
  | Return None :: rest => gather rest results
  | Raise e :: _ => Raise e
  end.

(** ** The body of the table *)

Definition separator : string := "\midrule".

(** The rows of the results with a separator between every two consecutive
    results of different lanes, as the specification describes the body of
    the table. *)
Fixpoint rows_with_separators (results : list BenchResult) : list string :=
  match results with
  | [] => []
  | r :: rest =>
      table_row r ::
      (match rest with
       | next :: _ =>
           if decide (lanes (config next) ≠ lanes (config r)) then [separator] else []
       | [] => []
       end ++ rows_with_separators rest)%list
  end.

(** The number of places where two consecutive results differ in lanes. *)
Fixpoint transitions (results : list BenchResult) : nat :=
  match results with
  | [] => 0
  | r :: rest =>
      (match rest with
       | next :: _ => if decide (lanes (config next) ≠ lanes (config r)) then 1 else 0
       | [] => 0
       end + transitions rest)%nat
  end.

(** The separator the loop owes before the next result, given the lanes it
    remembers. *)
Definition pending (current_lanes : option Z) (results : list BenchResult) : list string :=
  match current_lanes, results with
  | Some current, next :: _ =>
      if decide (lanes (config next) ≠ current) then [separator] else []
  | _, _ => []
  end.

(** ** Traces *)

(** An event that reports something, as opposed to starting a process. *)
Definition is_report (ev : event) : Prop :=
  match ev with
  | SubprocessRun _ _ _ _ => False
  | _ => True
  end.

(** The world [w] with [events] added to its trace. *)
Definition with_events (w : World) (events : list event) : World :=
  {| fs := fs w; environ := environ w; trace := (trace w ++ events)%list |}.

(** [m] leaves the file system and the environment of the world alone,
    starts no process, and returns a value that depends on the file system
    only. *)
Definition reads_only {A : Type} (m : M A) : Prop :=
  forall w,
    (exists events, (m w).2 = with_events w events /\ Forall is_report events) /\
    (forall w2, fs w2 = fs w -> (m w2).1 = (m w).1).

(** The exit statuses of the processes started in a trace, in order. *)
Definition status_of (ev : event) : option Z :=
  match ev with
  | SubprocessRun _ _ _ status => Some status
  | _ => None
  end.

Definition statuses (events : list event) : list Z := omap status_of events.

(** The sweep parameters handed to the processes started in a trace. *)
Definition launch_of (ev : event) : option (option string * option string) :=
  match ev with
  | SubprocessRun _ _ env _ => Some (env !! "LANES", env !! "ITERATIONS")
  | _ => None
  end.

Definition launches (events : list event) : list (option string * option string) :=
  omap launch_of events.

Definition launch_key (c : BenchConfig) : option string * option string :=
  (Some (str_int (lanes c)), Some (str_int (iterations c))).

Definition collecting_line : event := Stdout (newline +:+ "Collecting results...").

(** ** Sample worlds and hosts *)

(** A benchmark directory whose statistics file holds [estimate]. *)
Definition bench_dir_of (estimate : json) : node :=
  Dir [("new", Dir [("estimates.json",
    File (Document (JDict [("mean", JDict [("point_estimate", estimate)])])))])].

(** A file system holding the workspace [/repo] with the given entries in the
    result roots of the three phases. *)
Definition repo_tree (witness proof verify : list (string * node)) : node :=
  Dir [("repo", Dir [("target", Dir [("criterion", Dir [
    ("iterated_f_witness_generation", Dir witness);
    ("iterated_f_proof_generation", Dir proof);
    ("iterated_f_proof_verification", Dir verify)])])])].

Definition repo : path := ["repo"].

(** Results of the (4, 8192) and (1, 8192) configurations side by side, in
    the two orders a listing may have. *)
Definition lanes4_first : list (string * node) := [
  ("iterations_8192_lanes_4_run", bench_dir_of (JFloat 4000000));
  ("iterations_8192_run", bench_dir_of (JFloat 1500000))
].

Definition lanes1_first : list (string * node) := reverse lanes4_first.

(** A file system holding one benchmark directory, [/bench], with the
    given statistics file. *)
Definition stats_world (data : file_data) : World :=
  world_of (Dir [("bench", Dir [("new", Dir [("estimates.json", File data)])])]).

Definition bench : path := ["bench"].

(** The end-to-end scenario of the specification for (1, 8192): estimates
    of 1,500,000, 2,300,000 and 500,000 ns in the three phases. *)
Definition scenario_world : World :=
  world_of (repo_tree
    [("iterations_8192_run", bench_dir_of (JInt 1500000))]
    [("iterations_8192_run", bench_dir_of (JInt 2300000))]
    [("iterations_8192_run", bench_dir_of (JInt 500000))]).

(** The same with the proof phase never run. *)
Definition partial_world : World :=
  world_of (repo_tree
    [("iterations_8192_run", bench_dir_of (JInt 1500000))]
    []
    [("iterations_8192_run", bench_dir_of (JInt 500000))]).

(** A host whose benchmark command succeeds and writes nothing. *)
Definition quiet_host : Host := {|
  script_file := ["repo"; "tools"; "bench_iterated_f.py"];
  subprocess_run := fun _ _ _ tree =>
    ({| returncode := 0; stdout := ""; stderr := "" |}, tree)
|}.




(** ** Further vocabulary *)

(** A decoded value that [/] accepts as a number: JSON numbers, and the
    booleans, which Python counts among the integers. *)
Definition is_number (v : json) : bool :=
  match v with
  | JInt _ | JFloat _ | JBool _ => true
  | _ => false
  end.

(** The files written in a trace, in order. *)
Definition written (ev : event) : option (path * string) :=
  match ev with
  | WriteText p text => Some (p, text)
  | _ => None
  end.

Definition writes (events : list event) : list (path * string) := omap written events.

(** [m] only adds events to the trace, and none of them writes a file. *)
Definition writes_nothing {A : Type} (m : M A) : Prop :=
  forall w, exists events, (m w).2 = with_events w events /\ writes events = [].

(** Results in which the rows of equal lanes are contiguous. *)
Definition grouped (results : list BenchResult) : Prop :=
  forall i j k ri rj rk,
    (i <= j)%nat -> (j <= k)%nat ->
    results !! i = Some ri -> results !! j = Some rj -> results !! k = Some rk ->
    lanes (config ri) = lanes (config rk) ->
    lanes (config rj) = lanes (config ri).

(** A process started the way the script starts its benchmark. *)
Definition is_benchmark_run `{Host} (ev : event) : Prop :=
  match ev with
  | SubprocessRun argv cwd _ _ => argv = BENCH_COMMAND /\ cwd = get_workspace_root
  | _ => True
  end.

(** The warning of [collect_results] for a phase without a directory. *)
Definition missing_dir_warning (phase : string) (c : BenchConfig) : event :=
  Stdout ("Warning: No benchmark dir found for " +:+ phase +:+ " with config "
            +:+ config_str c).


(** A string in which the character [c] does not occur. *)
Fixpoint free_of (c : ascii) (s : string) : Prop :=
  match s with
  | EmptyString => True
  | String x s' => x ≠ c /\ free_of c s'
  end.

(** A host installed in [/] itself. *)
Definition shallow_host : Host := {|
  script_file := ["bench_iterated_f.py"];
  subprocess_run := fun _ _ _ tree =>
    ({| returncode := 0; stdout := ""; stderr := "" |}, tree)
|}.


(** * Properties *)

(** ** The arithmetic of floats, on examples *)

Example int_truediv_ex :
  int_truediv 1500000 1000000 = Return 1.5%float /\
  int_truediv 1 1000000 = Return 1e-6%float /\
  int_truediv (- 2300000) 1000000 = Return (-2.3)%float /\
  int_truediv 0 1000000 = Return 0%float /\
  int_truediv (10 ^ 400) 1000000
    = Raise (OverflowError "integer division result too large for a float").
Proof. vm_compute. auto 10. Qed.

Example truediv_ex :
  truediv (JFloat 1523423.25) 1000000 = Return 1.52342325%float /\
  truediv (JBool true) 1000000 = Return 1e-6%float /\
  truediv (JStr "fast") 1000000
    = Raise (TypeError "unsupported operand type(s) for /: 'str' and 'int'").
Proof. vm_compute. auto. Qed.

Example format_fixed_ex :
  format_fixed 1 1.5%float = "1.5" /\ format_fixed 2 2.675%float = "2.67" /\
  format_fixed 1 0.25%float = "0.2" /\ format_fixed 1 0.35%float = "0.3" /\
  format_fixed 1 (-0.04)%float = "-0.0" /\ format_fixed 2 1234.5%float = "1234.50" /\
  format_fixed 1 nan = "nan" /\ format_fixed 2 infinity = "inf".
Proof. vm_compute. auto 10. Qed.

Example format_time_ex :
  format_time 0.5%float = "500.0 " +:+ micro +:+ "s" /\
  format_time 1%float = "1.0 ms" /\
  format_time 999.96%float = "1000.0 ms" /\
  format_time 1000%float = "1.00 s" /\
  format_time 61234.5%float = "61.23 s".
Proof. vm_compute. auto 10. Qed.

(** ** The configuration sweep *)

(** C4. The sweep is a fixed list of 15 configurations: the tiers of 1, 4
    and 16 lanes in that order, five configurations each.  The iteration
    counts are powers of two, 2^13..2^17 for one lane, 2^11..2^15 for four
    and 2^9..2^13 for sixteen: the range moves down as the lanes go up
    (within a tier the counts are listed from the smallest up), so that in
    every tier the products lanes * iterations are 2^13, 2^14, 2^15, 2^16,
    2^17. *)
Theorem bench_configs_sweep :
  length BENCH_CONFIGS = 15%nat /\
  BENCH_CONFIGS = (tier 1 ++ tier 4 ++ tier 16)%list /\
  lanes <$> BENCH_CONFIGS = [1; 1; 1; 1; 1; 4; 4; 4; 4; 4; 16; 16; 16; 16; 16] /\
  iterations <$> tier 1 = (fun k => 2 ^ k) <$> [13; 14; 15; 16; 17] /\
  iterations <$> tier 4 = (fun k => 2 ^ k) <$> [11; 12; 13; 14; 15] /\
  iterations <$> tier 16 = (fun k => 2 ^ k) <$> [9; 10; 11; 12; 13] /\
  Forall (fun t => total_ops <$> tier t = [2 ^ 13; 2 ^ 14; 2 ^ 15; 2 ^ 16; 2 ^ 17])
    [1; 4; 16].
Proof.
  repeat split; try reflexivity.
  repeat constructor.
Qed.

(** ** Powers of two *)

Lemma land_pred_pow2 (k : Z) : 0 <= k -> Z.land (2 ^ k) (2 ^ k - 1) = 0.
Proof.
  intros Hk. apply Z.bits_inj'. intros i Hi.
  rewrite Z.land_spec, Z.bits_0, Z.pow2_bits_eqb by lia.
  replace (2 ^ k - 1) with (Z.ones k) by (rewrite Z.ones_equiv; lia).
  destruct (Z.eqb_spec k i) as [<-|Hne]; [|reflexivity].
  rewrite Z.ones_spec_high by lia. reflexivity.
Qed.

Lemma land_pred_zero (n : Z) : 0 < n -> Z.land n (n - 1) = 0 -> n = 2 ^ Z.log2 n.
Proof.
  intros Hn Hland.
  destruct (Z.log2_spec n Hn) as [Hlo Hhi].
  destruct (decide (n = 2 ^ Z.log2 n)) as [|Hne]; [assumption|exfalso].
  assert (Hlog : Z.log2 (n - 1) = Z.log2 n).
  { apply Z.log2_unique; [apply Z.log2_nonneg | lia]. }
  assert (Hbit : Z.testbit (Z.land n (n - 1)) (Z.log2 n) = true).
  { rewrite Z.land_spec, Z.bit_log2 by lia.
    rewrite <- Hlog. rewrite Z.bit_log2; [reflexivity|].
    pose proof (Z.pow_pos_nonneg 2 (Z.log2 n) ltac:(lia) (Z.log2_nonneg n)). lia. }
  rewrite Hland, Z.bits_0 in Hbit. discriminate.
Qed.

(** The test of the script, [n > 0 and (n & (n - 1)) == 0], holds exactly
    of the powers of two. *)
Lemma power_of_two_test (n : Z) :
  n > 0 /\ Z.land n (n - 1) = 0 <-> is_power_of_two n.
Proof.
  split.
  - intros [Hn Hland]. exists (Z.log2 n). split; [apply Z.log2_nonneg|].
    apply land_pred_zero; [lia | assumption].
  - intros (k & Hk & ->). split; [|apply land_pred_pow2; assumption].
    pose proof (Z.pow_pos_nonneg 2 k ltac:(lia) Hk). lia.
Qed.

(** A power of two is a number with exactly one bit set. *)
Lemma power_of_two_one_bit (n : Z) :
  is_power_of_two n <->
  exists k, 0 <= k /\ forall i, 0 <= i -> Z.testbit n i = bool_decide (i = k).
Proof.
  split.
  - intros (k & Hk & ->). exists k. split; [assumption|]. intros i Hi.
    rewrite Z.pow2_bits_eqb by assumption.
    destruct (Z.eqb_spec k i); case_bool_decide; congruence.
  - intros (k & Hk & Hbits). exists k. split; [assumption|].
    apply Z.bits_inj'. intros i Hi. rewrite Hbits, Z.pow2_bits_eqb by assumption.
    destruct (Z.eqb_spec k i); case_bool_decide; congruence.
Qed.

(** C9. A positive [n] that is an exact power of two, [n = 2^k], is
    formatted in exponent form, with the numeral of [k] as the exponent; every
    other positive integer is formatted as its plain decimal numeral. *)
Theorem format_power_of_two_spec (n : Z) :
  0 < n ->
  (forall k, 0 <= k -> n = 2 ^ k ->
     format_power_of_two n = "$2^{" +:+ str_int k +:+ "}$") /\
  (~ is_power_of_two n -> format_power_of_two n = str_int n).
Proof.
  intros Hn. unfold format_power_of_two. split.
  - intros k Hk ->. rewrite decide_True.
    + rewrite Z.log2_pow2 by assumption. reflexivity.
    + apply power_of_two_test. exists k. auto.
  - intros Hnot. rewrite decide_False; [reflexivity|].
    intros Htest. apply Hnot, power_of_two_test, Htest.
Qed.

Lemma format_power_of_two_witness :
  0 < 8192 /\
  (forall k, 0 <= k -> 8192 = 2 ^ k ->
     format_power_of_two 8192 = "$2^{" +:+ str_int k +:+ "}$") /\
  (~ is_power_of_two 8192 -> format_power_of_two 8192 = str_int 8192).
Proof. split; [lia | apply (format_power_of_two_spec 8192); lia]. Defined.

Example format_power_of_two_ex :
  format_power_of_two 8192 = "$2^{13}$" /\ format_power_of_two 12 = "12" /\
  format_power_of_two 1 = "$2^{0}$" /\ format_power_of_two 0 = "0".
Proof. vm_compute. auto. Qed.

(** ** Finding a benchmark directory *)

Lemma dir_prefix_cases (c : BenchConfig) (prefix : string) :
  (lanes c = 1 /\ prefix = "iterations_" +:+ str_int (iterations c) +:+ "_") \/
  (1 < lanes c /\
   prefix = "iterations_" +:+ str_int (iterations c) +:+ "_lanes_"
              +:+ str_int (lanes c) +:+ "_") ->
  dir_prefix c = prefix.
Proof.
  unfold dir_prefix. intros [[Hl ->]|[Hl ->]].
  - rewrite decide_True by assumption. reflexivity.
  - rewrite decide_False by lia. reflexivity.
Qed.

Lemma first_match_none (dir : path) (prefix : string) (entries : list (string * node)) :
  (forall e, e ∈ entries -> ~ matches prefix e) ->
  first_match dir prefix entries = None.
Proof.
  induction entries as [|[name n] rest IH]; intros Hno; [reflexivity|].
  simpl. destruct (is_dir n && startswith name prefix) eqn:Hm.
  - apply andb_prop in Hm. exfalso. apply (Hno (name, n)); [left | exact Hm].
  - apply IH. intros e He. apply Hno. right. exact He.
Qed.

Lemma first_match_first (dir : path) (prefix : string)
    (before : list (string * node)) (name : string) (n : node)
    (after : list (string * node)) :
  (forall e, e ∈ before -> ~ matches prefix e) ->
  matches prefix (name, n) ->
  first_match dir prefix (before ++ (name, n) :: after) = Some (dir // name).
Proof.
  intros Hno [Hd Hs]. simpl in Hd, Hs.
  induction before as [|[name' n'] rest IH]; simpl.
  - rewrite Hd, Hs. reflexivity.
  - destruct (is_dir n' && startswith name' prefix) eqn:Hm.
    + apply andb_prop in Hm. exfalso. apply (Hno (name', n')); [left | exact Hm].
    + apply IH. intros e He. apply Hno. right. exact He.
Qed.

(** C2. [find_benchmark_dir] scans the result root of the phase for the
    prefix iterations_<iterations>_ when [lanes = 1] and
    iterations_<iterations>_lanes_<lanes>_ when [lanes > 1].  It returns absent
    when the result root does not exist and when no entry of it is a
    directory whose name starts with the prefix; otherwise it returns the
    first entry, in the order of the listing, that is a directory and whose
    name starts with the prefix.  The world is left as it is. *)
Theorem find_benchmark_dir_spec (workspace : path) (phase : string)
    (c : BenchConfig) (w : World) (prefix : string) :
  (lanes c = 1 /\ prefix = "iterations_" +:+ str_int (iterations c) +:+ "_") \/
  (1 < lanes c /\
   prefix = "iterations_" +:+ str_int (iterations c) +:+ "_lanes_"
              +:+ str_int (lanes c) +:+ "_") ->
  let root := criterion_root workspace phase in
  let result := find_benchmark_dir workspace phase c w in
  (lookup_path (fs w) root = None -> result = (Return None, w)) /\
  (forall entries,
     lookup_path (fs w) root = Some (Dir entries) ->
     (forall e, e ∈ entries -> ~ matches prefix e) ->
     result = (Return None, w)) /\
  (forall before name n after,
     lookup_path (fs w) root = Some (Dir (before ++ (name, n) :: after)) ->
     (forall e, e ∈ before -> ~ matches prefix e) ->
     matches prefix (name, n) ->
     result = (Return (Some (root // name)), w)).
Proof.
  intros Hprefix root result. apply dir_prefix_cases in Hprefix.
  subst result. unfold find_benchmark_dir. fold (criterion_root workspace phase).
  fold root. rewrite Hprefix.
  unfold mbind, M_bind, mret, M_ret, path_exists, iterdir.
  repeat split.
  - intros Hroot. rewrite Hroot. rewrite bool_decide_eq_false_2; [reflexivity|].
    intros [x Hx]. discriminate.
  - intros entries Hroot Hno. rewrite Hroot.
    rewrite bool_decide_eq_true_2 by eauto. cbn [negb]. rewrite Hroot.
    rewrite first_match_none by assumption. reflexivity.
  - intros before name n after Hroot Hno Hm. rewrite Hroot.
    rewrite bool_decide_eq_true_2 by eauto. cbn [negb]. rewrite Hroot.
    rewrite first_match_first by assumption. reflexivity.
Qed.

Lemma find_benchmark_dir_witness :
  let c := {| lanes := 4; iterations := 8192 |} in
  let root := criterion_root repo "witness_generation" in
  (1 < lanes c) /\
  find_benchmark_dir repo "witness_generation" c (world_of (Dir []))
    = (Return None, world_of (Dir [])) /\
  find_benchmark_dir repo "witness_generation" c
      (world_of (repo_tree [("iterations_8192_run", Dir [])] [] []))
    = (Return None, world_of (repo_tree [("iterations_8192_run", Dir [])] [] [])) /\
  find_benchmark_dir repo "witness_generation" c
      (world_of (repo_tree lanes1_first [] []))
    = (Return (Some (root // "iterations_8192_lanes_4_run")),
       world_of (repo_tree lanes1_first [] [])).
Proof.
  intros c root.
  assert (Hp : (lanes c = 1 /\
                "iterations_8192_lanes_4_" = "iterations_" +:+ str_int (iterations c) +:+ "_") \/
               (1 < lanes c /\
                "iterations_8192_lanes_4_" = "iterations_" +:+ str_int (iterations c)
                   +:+ "_lanes_" +:+ str_int (lanes c) +:+ "_")).
  { right. split; [reflexivity | vm_compute; reflexivity]. }
  split; [reflexivity|]. split; [|split].
  - apply (find_benchmark_dir_spec repo "witness_generation" c (world_of (Dir [])) _ Hp).
    reflexivity.
  - eapply (find_benchmark_dir_spec repo "witness_generation" c _ _ Hp).
    + reflexivity.
    + intros e He [_ Hs]. apply list_elem_of_singleton in He. subst e.
      vm_compute in Hs. discriminate.
  - apply (proj2 (proj2 (find_benchmark_dir_spec repo "witness_generation" c
                           (world_of (repo_tree lanes1_first [] [])) _ Hp))
             [("iterations_8192_run", bench_dir_of (JFloat 1500000))]
             "iterations_8192_lanes_4_run" (bench_dir_of (JFloat 4000000)) []).
    + reflexivity.
    + intros e He [_ Hs]. apply list_elem_of_singleton in He. subst e.
      vm_compute in Hs. discriminate.
    + split; vm_compute; reflexivity.
Defined.

Lemma prefix_app (a b c : string) :
  String.prefix (a +:+ b) (a +:+ c) = String.prefix b c.
Proof.
  induction a as [|x a IH]; [reflexivity|]. simpl.
  destruct (ascii_dec x x); [exact IH | congruence].
Qed.

(** C3. The single-lane prefix is a prefix of every multi-lane directory
    name with the same iteration count.  The sweep holds both (1, 8192) and
    (4, 8192); with the results of both in one result root,
    [find_benchmark_dir] asked for (1, 8192) returns the directory of
    (4, 8192) when the listing yields it first, and the single-lane one when
    the same entries come in the other order. *)
Theorem single_lane_prefix_not_exclusive :
  (forall n l rest,
     startswith ("iterations_" +:+ str_int n +:+ "_lanes_" +:+ str_int l +:+ "_" +:+ rest)
       (dir_prefix {| lanes := 1; iterations := n |}) = true) /\
  {| lanes := 1; iterations := 8192 |} ∈ BENCH_CONFIGS /\
  {| lanes := 4; iterations := 8192 |} ∈ BENCH_CONFIGS /\
  lanes4_first ≡ₚ lanes1_first /\
  (find_benchmark_dir repo "witness_generation" {| lanes := 1; iterations := 8192 |}
     (world_of (repo_tree lanes4_first [] []))).1
    = Return (Some (criterion_root repo "witness_generation"
                      // "iterations_8192_lanes_4_run")) /\
  (find_benchmark_dir repo "witness_generation" {| lanes := 1; iterations := 8192 |}
     (world_of (repo_tree lanes1_first [] []))).1
    = Return (Some (criterion_root repo "witness_generation" // "iterations_8192_run")).
Proof.
  split; [|split; [|split; [|split; [|split]]]].
  - intros n l rest. unfold startswith, dir_prefix.
    rewrite decide_True by reflexivity.
    rewrite !prefix_app. reflexivity.
  - unfold BENCH_CONFIGS. change (2 ^ 13) with 8192. set_solver.
  - unfold BENCH_CONFIGS. change (2 ^ 13) with 8192. set_solver.
  - unfold lanes1_first. symmetry. apply reverse_Permutation.
  - vm_compute. reflexivity.
  - vm_compute. reflexivity.
Qed.

(** ** Reading a timing *)

Ltac run_read :=
  unfold read_benchmark_time, mbind, M_bind, mret, M_ret, lift, try_except,
    path_exists, json_load, eprint, emit;
  unfold estimates_path in *; cbn beta iota zeta.


Lemma getitem_not_dict (v : json) (key : string) :
  is_dict v = false -> exists msg, getitem v key = Raise (TypeError msg).
Proof. destruct v; simpl; intros H; try discriminate; eauto. Qed.


(** C7. The handler of [read_benchmark_time] catches the JSON decoding
    error and the missing key only.  When the file decodes to a value that
    is not a mapping, or to a mapping whose "mean" is not a mapping, the
    subscript raises a [TypeError], which leaves [read_benchmark_time]:
    nothing is returned and nothing is printed. *)
Theorem read_benchmark_time_type_error (bench_dir : path) (w : World) (v : json) :
  lookup_path (fs w) (estimates_path bench_dir) = Some (File (Document v)) ->
  is_dict v = false \/
  (exists items mean,
     v = JDict items /\ assoc "mean" items = Some mean /\ is_dict mean = false) ->
  exists msg, read_benchmark_time bench_dir w = (Raise (TypeError msg), w).
Proof.
  intros Hf Hshape. run_read. rewrite Hf.
  rewrite bool_decide_eq_true_2 by eauto. cbn [negb]. rewrite Hf.
  destruct Hshape as [Hv | (items & mean & -> & Hm & Hmean)].
  - destruct (getitem_not_dict v "mean" Hv) as [msg ->]. eauto.
  - cbn [getitem]. rewrite Hm.
    destruct (getitem_not_dict mean "point_estimate" Hmean) as [msg ->]. eauto.
Qed.



Lemma read_benchmark_time_type_error_witness :
  (exists msg,
     read_benchmark_time bench (stats_world (Document (JDict [("mean", JFloat 5)])))
       = (Raise (TypeError msg), stats_world (Document (JDict [("mean", JFloat 5)])))) /\
  (exists msg,
     read_benchmark_time bench (stats_world (Document (JList [JInt 1; JInt 2])))
       = (Raise (TypeError msg), stats_world (Document (JList [JInt 1; JInt 2])))).
Proof.
  split.
  - apply (read_benchmark_time_type_error bench _ (JDict [("mean", JFloat 5)]));
      [reflexivity|].
    right. exists [("mean", JFloat 5)], (JFloat 5). repeat split; reflexivity.
  - apply (read_benchmark_time_type_error bench _ (JList [JInt 1; JInt 2]));
      [reflexivity|].
    left. reflexivity.
Defined.

(** ** Collecting the three phases *)

Lemma bind_run {A B : Type} (m : M A) (f : A -> M B) (w : World) :
  (m ≫= f) w =
  match m w with
  | (Return a, w') => f a w'
  | (Raise e, w') => (Raise e, w')
  end.
Proof. reflexivity. Qed.

Lemma ret_run {A : Type} (a : A) (w : World) : (mret a : M A) w = (Return a, w).
Proof. reflexivity. Qed.

(** Looking for a directory changes nothing. *)
Lemma find_benchmark_dir_world (workspace : path) (phase : string)
    (c : BenchConfig) (w : World) :
  (find_benchmark_dir workspace phase c w).2 = w.
Proof.
  unfold find_benchmark_dir, mbind, M_bind, mret, M_ret, path_exists, iterdir.
  cbn beta iota zeta.
  destruct (negb _); [reflexivity|].
  destruct (lookup_path _ _) as [[|]|]; reflexivity.
Qed.

(** A reading that yields a timing prints nothing. *)
Lemma read_benchmark_time_present (bench_dir : path) (w w' : World) (t : float) :
  read_benchmark_time bench_dir w = (Return (Some t), w') -> w' = w.
Proof.
  run_read. destruct (negb _); [congruence|].
  destruct (lookup_path _ _) as [[[msg|v]|]|]; try discriminate.
  destruct (getitem v "mean") as [mean|[]]; try discriminate.
  destruct (getitem mean "point_estimate") as [est|[]]; try discriminate.
  destruct (truediv est 1000000) as [t'|[]]; try discriminate.
  congruence.
Qed.

Lemma collect_phases_cons (workspace : path) (c : BenchConfig) (phase : string)
    (rest : list string) (times : list float) (w : World) :
  (collect_phases workspace c (phase :: rest) times w).1 =
  match (phase_time workspace c phase w).1 with
  | Return (Some t) => (collect_phases workspace c rest (times ++ [t])%list w).1
  | Return None => Return None
  | Raise e => Raise e
  end.
Proof.
  cbn [collect_phases]. unfold phase_time. rewrite !bind_run.
  pose proof (find_benchmark_dir_world workspace phase c w) as Hw.
  destruct (find_benchmark_dir workspace phase c w) as [[[d|]|e] w1];
    simpl in Hw; subst w1; try reflexivity.
  rewrite bind_run.
  destruct (read_benchmark_time d w) as [[[t|]|e] w2] eqn:Hr; try reflexivity.
  apply read_benchmark_time_present in Hr. subst w2. reflexivity.
Qed.

Lemma collect_results_value (workspace : path) (c : BenchConfig) (w : World) :
  (collect_results workspace c w).1 =
  match (collect_phases workspace c PHASES [] w).1 with
  | Return (Some times) =>
      match times !! 0%nat, times !! 1%nat, times !! 2%nat with
      | Some t0, Some t1, Some t2 =>
          Return (Some {| config := c; witness_time_ms := t0; proof_time_ms := t1;
                          verify_time_ms := t2 |})
      | _, _, _ => Raise (IndexError "list index out of range")
      end
  | Return None => Return None
  | Raise e => Raise e
  end.
Proof.
  unfold collect_results. rewrite bind_run.
  destruct (collect_phases workspace c PHASES [] w) as [[[times|]|e] w']; try reflexivity.
  cbn [fst]. unfold index, lift. rewrite !bind_run.
  destruct (times !! 0%nat); [|reflexivity].
  cbn. destruct (times !! 1%nat); [|reflexivity].
  cbn. destruct (times !! 2%nat); reflexivity.
Qed.

(** The outcome of [collect_results], phase by phase in the order of the
    script. *)
Lemma collect_results_sequence (workspace : path) (c : BenchConfig) (w : World) :
  (collect_results workspace c w).1 =
  match (phase_time workspace c "witness_generation" w).1 with
  | Return (Some t0) =>
      match (phase_time workspace c "proof_generation" w).1 with
      | Return (Some t1) =>
          match (phase_time workspace c "proof_verification" w).1 with
          | Return (Some t2) =>
              Return (Some {| config := c; witness_time_ms := t0;
                              proof_time_ms := t1; verify_time_ms := t2 |})
          | Return None => Return None
          | Raise e => Raise e
          end
      | Return None => Return None
      | Raise e => Raise e
      end
  | Return None => Return None
  | Raise e => Raise e
  end.
Proof.
  rewrite collect_results_value. unfold PHASES.
  rewrite collect_phases_cons.
  destruct (phase_time workspace c "witness_generation" w).1 as [[t0|]|e]; try reflexivity.
  rewrite collect_phases_cons.
  destruct (phase_time workspace c "proof_generation" w).1 as [[t1|]|e]; try reflexivity.
  rewrite collect_phases_cons.
  destruct (phase_time workspace c "proof_verification" w).1 as [[t2|]|e]; reflexivity.
Qed.

(** C1. [collect_results] asks the phases witness_generation,
    proof_generation, proof_verification in this order.  It returns a
    [BenchResult] exactly when each of the three yields a timing, and the
    result then holds the three timings as the witness, proof and verify
    times.  When no phase raises and one of them yields absent, it returns
    absent, whatever the other two hold; and a phase that yields absent after
    phases that yielded timings settles the answer before any later phase is
    asked. *)
Theorem collect_results_all_or_nothing (workspace : path) (c : BenchConfig) (w : World) :
  let yields phase := (phase_time workspace c phase w).1 in
  let result := (collect_results workspace c w).1 in
  (forall r,
     result = Return (Some r) <->
     exists t0 t1 t2,
       yields "witness_generation" = Return (Some t0) /\
       yields "proof_generation" = Return (Some t1) /\
       yields "proof_verification" = Return (Some t2) /\
       r = {| config := c; witness_time_ms := t0; proof_time_ms := t1;
              verify_time_ms := t2 |}) /\
  ((forall phase, phase ∈ PHASES -> exists o, yields phase = Return o) ->
   (exists phase, phase ∈ PHASES /\ yields phase = Return None) ->
   result = Return None) /\
  (yields "witness_generation" = Return None -> result = Return None) /\
  (forall t0, yields "witness_generation" = Return (Some t0) ->
     yields "proof_generation" = Return None -> result = Return None) /\
  (forall t0 t1, yields "witness_generation" = Return (Some t0) ->
     yields "proof_generation" = Return (Some t1) ->
     yields "proof_verification" = Return None -> result = Return None).
Proof.
  intros yields result. subst yields result. cbn beta.
  rewrite collect_results_sequence.
  split; [|split; [|split; [|split]]].
  - intros r. split.
    + destruct (phase_time workspace c "witness_generation" w).1 as [[t0|]|e0];
        try discriminate.
      destruct (phase_time workspace c "proof_generation" w).1 as [[t1|]|e1];
        try discriminate.
      destruct (phase_time workspace c "proof_verification" w).1 as [[t2|]|e2];
        try discriminate.
      intros [= <-]. exists t0, t1, t2. auto.
    + intros (t0 & t1 & t2 & -> & -> & -> & ->). reflexivity.
  - intros Hall (phase & Hin & Hnone).
    destruct (Hall "witness_generation") as [o0 H0]; [unfold PHASES; repeat constructor|].
    destruct (Hall "proof_generation") as [o1 H1]; [unfold PHASES; repeat constructor|].
    destruct (Hall "proof_verification") as [o2 H2]; [unfold PHASES; repeat constructor|].
    unfold PHASES in Hin.
    rewrite H0, H1, H2.
    assert (o0 = None \/ o1 = None \/ o2 = None) as [->|[->| ->]].
    { rewrite !elem_of_cons in Hin. destruct Hin as [->|[->|[->|Hin]]].
      - left. congruence.
      - right. left. congruence.
      - right. right. congruence.
      - inversion Hin. }
    + reflexivity.
    + destruct o0; reflexivity.
    + destruct o0, o1; reflexivity.
  - intros ->. reflexivity.
  - intros t0 -> ->. reflexivity.
  - intros t0 t1 -> -> ->. reflexivity.
Qed.

Lemma collect_results_witness :
  let c := {| lanes := 1; iterations := 8192 |} in
  (collect_results repo c scenario_world).1
    = Return (Some {| config := c; witness_time_ms := 1.5; proof_time_ms := 2.3;
                      verify_time_ms := 0.5 |}) /\
  (phase_time repo c "witness_generation" partial_world).1 = Return (Some 1.5%float) /\
  (phase_time repo c "proof_generation" partial_world).1 = Return None /\
  (phase_time repo c "proof_verification" partial_world).1 = Return (Some 0.5%float) /\
  (collect_results repo c partial_world).1 = Return None.
Proof.
  intros c. split; [|split; [|split; [|split]]];
    [| vm_compute; reflexivity | vm_compute; reflexivity | vm_compute; reflexivity |].
  - apply (collect_results_all_or_nothing repo c scenario_world).
    exists 1.5%float, 2.3%float, 0.5%float. repeat split; vm_compute; reflexivity.
  - pose proof (collect_results_all_or_nothing repo c partial_world) as H.
    cbv zeta in H. destruct H as (_ & H & _). apply H.
    + intros phase Hin. unfold PHASES in Hin. rewrite !elem_of_cons in Hin.
      destruct Hin as [->|[->|[->|Hin]]]; [| | |inversion Hin];
        eexists; vm_compute; reflexivity.
    + exists "proof_generation". split; [unfold PHASES; repeat constructor|].
      vm_compute. reflexivity.
Defined.

(** ** The table *)

Lemma table_loop_rows (results : list BenchResult) :
  forall current_lanes lines,
    table_loop results current_lanes lines
    = (lines ++ pending current_lanes results ++ rows_with_separators results)%list.
Proof.
  induction results as [|r rest IH]; intros current_lanes lines.
  - destruct current_lanes; simpl; rewrite app_nil_r; reflexivity.
  - cbn [table_loop]. cbv zeta. rewrite IH. cbn [rows_with_separators pending].
    fold separator.
    destruct current_lanes as [current|], rest as [|next rest'];
      cbn [pending]; repeat case_decide; rewrite <- ?app_assoc; reflexivity.
Qed.

Lemma length_app_string (a b : string) :
  String.length (a +:+ b) = (String.length a + String.length b)%nat.
Proof. induction a as [|x a IH]; simpl; [reflexivity | rewrite IH; reflexivity]. Qed.

(** A row is never the separator: it is longer. *)
Lemma table_row_not_separator (r : BenchResult) : table_row r ≠ separator.
Proof.
  intros H. apply (f_equal String.length) in H. unfold table_row in H.
  rewrite !length_app_string in H. simpl in H. lia.
Qed.

Lemma rows_with_separators_last (results : list BenchResult) :
  last (rows_with_separators results) = table_row <$> last results.
Proof.
  induction results as [|r rest IH]; [reflexivity|].
  destruct rest as [|next rest']; [reflexivity|].
  rewrite last_cons_cons, <- IH. cbn [rows_with_separators].
  destruct (decide _); reflexivity.
Qed.

Lemma rows_with_separators_count (results : list BenchResult) :
  length (filter (fun line => line = separator) (rows_with_separators results))
  = transitions results.
Proof.
  induction results as [|r rest IH]; [reflexivity|].
  cbn [rows_with_separators transitions].
  rewrite filter_cons_False by apply table_row_not_separator.
  rewrite filter_app, length_app, IH. f_equal.
  destruct rest as [|next rest']; [reflexivity|].
  destruct (decide _); reflexivity.
Qed.

(** C8. The table is the fixed header, the body and the fixed footer.  The
    body holds the rows of the results in order, with one separator between
    two consecutive rows exactly when their lanes differ, and no separator
    anywhere else: the body starts with the row of the first result and ends
    with the row of the last, no row is itself a separator, and the body holds
    as many separators as there are places where the lanes change.  This
    holds of every list of results, grouped by lanes or not.  (The fixed
    header ends with the rule under the column titles, which belongs to the
    header and separates no groups.) *)
Theorem generate_latex_table_separators (results : list BenchResult) :
  let body := rows_with_separators results in
  table_lines results = (TABLE_HEADER ++ body ++ TABLE_FOOTER)%list /\
  generate_latex_table results
    = String.concat newline (TABLE_HEADER ++ body ++ TABLE_FOOTER)%list /\
  head body = table_row <$> head results /\
  last body = table_row <$> last results /\
  (forall r, table_row r ≠ separator) /\
  length (filter (fun line => line = separator) body) = transitions results.
Proof.
  intros body.
  assert (Hlines : table_lines results = (TABLE_HEADER ++ body ++ TABLE_FOOTER)%list).
  { unfold table_lines. cbv zeta. rewrite table_loop_rows. cbn [pending].
    rewrite <- app_assoc. reflexivity. }
  split; [exact Hlines|].
  split; [unfold generate_latex_table; rewrite Hlines; reflexivity|].
  split; [destruct results; reflexivity|].
  split; [apply rows_with_separators_last|].
  split; [apply table_row_not_separator|].
  apply rows_with_separators_count.
Qed.

(** The scenario of the specification: (1, 8192), (1, 16384), (4, 2048). *)
Example generate_latex_table_scenario :
  let r1 := {| config := {| lanes := 1; iterations := 8192 |};
               witness_time_ms := 1.5; proof_time_ms := 2.3; verify_time_ms := 0.5 |} in
  let r2 := {| config := {| lanes := 1; iterations := 16384 |};
               witness_time_ms := 3; proof_time_ms := 1200; verify_time_ms := 0.0004 |} in
  let r3 := {| config := {| lanes := 4; iterations := 2048 |};
               witness_time_ms := 1.5; proof_time_ms := 2.3; verify_time_ms := 0.5 |} in
  table_lines [r1; r2; r3] =
    (TABLE_HEADER ++ [
       "1 & $2^{13}$ & $2^{13}$ & 1.5 ms & 2.3 ms & 500.0 " +:+ micro +:+ "s \\";
       "1 & $2^{14}$ & $2^{14}$ & 3.0 ms & 1.20 s & 0.4 " +:+ micro +:+ "s \\";
       "\midrule";
       "4 & $2^{11}$ & $2^{13}$ & 1.5 ms & 2.3 ms & 500.0 " +:+ micro +:+ "s \\"
     ] ++ TABLE_FOOTER)%list.
Proof. vm_compute. reflexivity. Qed.

(** ** The environment of the benchmark *)

(** C10. [run_benchmark] starts the benchmark command once, in the
    workspace root, with an environment that is the parent's with
    ITERATIONS set to the iteration count, LANES set to the lane count and
    RUSTFLAGS set to its former value (empty when it was absent) followed by
    the native-CPU flag; every other variable is passed on as it is.  The
    environment of the script itself is left as it was. *)
Theorem run_benchmark_environment `{Host} (c : BenchConfig) (w : World) :
  let w' := (run_benchmark c w).2 in
  exists env result tail,
    trace w' = (trace w ++
                [Stdout ("Running benchmark: lanes=" +:+ str_int (lanes c)
                           +:+ ", iterations=" +:+ str_int (iterations c));
                 SubprocessRun BENCH_COMMAND get_workspace_root env (returncode result)]
                ++ tail)%list /\
    (tail = [] \/ tail = [Stderr ("Benchmark failed: " +:+ stderr result)]) /\
    subprocess_run BENCH_COMMAND get_workspace_root env (fs w) = (result, fs w') /\
    env !! "ITERATIONS" = Some (str_int (iterations c)) /\
    env !! "LANES" = Some (str_int (lanes c)) /\
    env !! "RUSTFLAGS"
      = Some (default "" (environ w !! "RUSTFLAGS") +:+ " -C target-cpu=native") /\
    (forall name, name ≠ "ITERATIONS" -> name ≠ "LANES" -> name ≠ "RUSTFLAGS" ->
       env !! name = environ w !! name) /\
    environ w' = environ w.
Proof.
  intros w'. subst w'.
  unfold run_benchmark, run_subprocess, os_environ_copy, print, eprint, emit,
    mbind, M_bind, mret, M_ret.
  cbn beta iota zeta.
  set (env := <["RUSTFLAGS" := _]> (<["LANES" := _]> (<["ITERATIONS" := _]> (environ w)))).
  cbn [fs environ trace].
  destruct (subprocess_run BENCH_COMMAND get_workspace_root env (fs w))
    as [result tree] eqn:Hrun.
  exists env, result.
  assert (Henv :
    env !! "ITERATIONS" = Some (str_int (iterations c)) /\
    env !! "LANES" = Some (str_int (lanes c)) /\
    env !! "RUSTFLAGS"
      = Some (default "" (environ w !! "RUSTFLAGS") +:+ " -C target-cpu=native") /\
    (forall name, name ≠ "ITERATIONS" -> name ≠ "LANES" -> name ≠ "RUSTFLAGS" ->
       env !! name = environ w !! name)).
  { subst env. split; [|split; [|split]].
    - rewrite lookup_insert_ne, lookup_insert_ne, lookup_insert_eq by discriminate.
      reflexivity.
    - rewrite lookup_insert_ne, lookup_insert_eq by discriminate. reflexivity.
    - rewrite lookup_insert_eq.
      rewrite lookup_insert_ne, lookup_insert_ne by discriminate. reflexivity.
    - intros name H1 H2 H3. rewrite !lookup_insert_ne by congruence. reflexivity. }
  destruct (decide (returncode result ≠ 0)).
  - exists [Stderr ("Benchmark failed: " +:+ stderr result)].
    cbn [snd fs environ trace]. rewrite <- !app_assoc.
    destruct Henv as (? & ? & ? & ?). repeat split; auto.
  - exists []. cbn [snd fs environ trace]. rewrite <- !app_assoc.
    destruct Henv as (? & ? & ? & ?). repeat split; auto.
Qed.

(** ** Computations that only read the file system *)

Lemma with_events_nil (w : World) : with_events w [] = w.
Proof. destruct w. unfold with_events. cbn. rewrite app_nil_r. reflexivity. Qed.

Lemma with_events_app (w : World) (e1 e2 : list event) :
  with_events (with_events w e1) e2 = with_events w (e1 ++ e2).
Proof. unfold with_events. cbn. rewrite app_assoc. reflexivity. Qed.

Lemma reads_only_fixed {A : Type} (f : node -> outcome A) :
  reads_only (fun w => (f (fs w), w)).
Proof.
  intros w. split.
  - exists []. rewrite with_events_nil. auto.
  - intros w2 Hfs. cbn. rewrite Hfs. reflexivity.
Qed.

Lemma reads_only_ret {A : Type} (a : A) : reads_only (mret a).
Proof. apply (reads_only_fixed (fun _ => Return a)). Qed.

Lemma reads_only_lift {A : Type} (r : outcome A) : reads_only (lift r).
Proof. apply (reads_only_fixed (fun _ => r)). Qed.

Lemma reads_only_path_exists (p : path) : reads_only (path_exists p).
Proof.
  intros w. unfold path_exists. split.
  - exists []. rewrite with_events_nil. auto.
  - intros w2 Hfs. cbn. rewrite Hfs. reflexivity.
Qed.

Lemma reads_only_iterdir (p : path) : reads_only (iterdir p).
Proof.
  intros w. unfold iterdir. split.
  - exists []. rewrite with_events_nil.
    destruct (lookup_path (fs w) p) as [[|]|]; auto.
  - intros w2 Hfs. rewrite Hfs.
    destruct (lookup_path (fs w) p) as [[|]|]; reflexivity.
Qed.

Lemma reads_only_json_load (p : path) : reads_only (json_load p).
Proof.
  intros w. unfold json_load. split.
  - exists []. rewrite with_events_nil.
    destruct (lookup_path (fs w) p) as [[[|]|]|]; auto.
  - intros w2 Hfs. rewrite Hfs.
    destruct (lookup_path (fs w) p) as [[[|]|]|]; reflexivity.
Qed.

Lemma reads_only_emit (ev : event) : is_report ev -> reads_only (emit ev).
Proof.
  intros Hev w. split.
  - exists [ev]. split; [reflexivity | auto].
  - reflexivity.
Qed.

Lemma reads_only_bind {A B : Type} (m : M A) (f : A -> M B) :
  reads_only m -> (forall a, reads_only (f a)) -> reads_only (m ≫= f).
Proof.
  intros Hm Hf w. destruct (Hm w) as [(e1 & Hw1 & He1) Hv1].
  split.
  - rewrite bind_run. destruct (m w) as [[a|e] w1]; cbn in Hw1; subst w1.
    + destruct (Hf a (with_events w e1)) as [(e2 & Hw2 & He2) _].
      exists (e1 ++ e2)%list. rewrite Hw2, with_events_app.
      split; [reflexivity | apply Forall_app; auto].
    + exists e1. auto.
  - intros w2 Hfs. rewrite !bind_run.
    specialize (Hv1 w2 Hfs). destruct (Hm w2) as [(e1' & Hw1' & _) _].
    destruct (m w2) as [[a2|e2] w2'], (m w) as [[a|e] w1];
      cbn in Hv1, Hw1, Hw1'; simplify_eq; [|reflexivity].
    apply (Hf a). exact Hfs.
Qed.

Lemma reads_only_try {A : Type} (body : M A) (handler : exn -> option (M A)) :
  reads_only body ->
  (forall e h, handler e = Some h -> reads_only h) ->
  reads_only (try_except body handler).
Proof.
  intros Hm Hh w. destruct (Hm w) as [(e1 & Hw1 & He1) Hv1].
  unfold try_except. split.
  - destruct (body w) as [[a|e] w1]; cbn in Hw1; subst w1.
    + exists e1. auto.
    + destruct (handler e) as [h|] eqn:Hhe.
      * destruct (Hh e h Hhe (with_events w e1)) as [(e2 & Hw2 & He2) _].
        exists (e1 ++ e2)%list. rewrite Hw2, with_events_app.
        split; [reflexivity | apply Forall_app; auto].
      * exists e1. auto.
  - intros w2 Hfs. specialize (Hv1 w2 Hfs).
    destruct (Hm w2) as [(e1' & Hw1' & _) _].
    destruct (body w2) as [[a2|e2] w2'], (body w) as [[a|e] w1];
      cbn in Hv1, Hw1, Hw1'; simplify_eq; [reflexivity|].
    destruct (handler e) as [h|] eqn:Hhe; [|reflexivity].
    apply (Hh e h Hhe). exact Hfs.
Qed.

Create HintDb readers.
#[local] Hint Resolve reads_only_ret reads_only_lift reads_only_path_exists
  reads_only_iterdir reads_only_json_load : readers.

Ltac reader :=
  repeat first
    [ apply reads_only_bind; [|intros ?]
    | apply reads_only_emit; exact I
    | solve [auto with readers]
    | match goal with
      | |- reads_only (if ?b then _ else _) => destruct b
      | |- reads_only (match ?x with _ => _ end) => destruct x
      end ].

Lemma reads_only_find_benchmark_dir (workspace : path) (phase : string) (c : BenchConfig) :
  reads_only (find_benchmark_dir workspace phase c).
Proof. unfold find_benchmark_dir. reader. Qed.

Lemma reads_only_read_benchmark_time (bench_dir : path) :
  reads_only (read_benchmark_time bench_dir).
Proof.
  unfold read_benchmark_time. cbv zeta. reader.
  apply reads_only_try; [reader|].
  intros e h Hh. destruct e; simplify_eq; unfold eprint; reader.
Qed.

Lemma reads_only_collect_phases (workspace : path) (c : BenchConfig) (phases : list string) :
  forall times, reads_only (collect_phases workspace c phases times).
Proof.
  induction phases as [|phase rest IH]; intros times; cbn [collect_phases].
  - reader.
  - apply reads_only_bind; [apply reads_only_find_benchmark_dir|].
    intros [bench_dir|]; [|unfold print; reader].
    apply reads_only_bind; [apply reads_only_read_benchmark_time|].
    intros [t|]; [apply IH | reader].
Qed.

Lemma reads_only_collect_results (workspace : path) (c : BenchConfig) :
  reads_only (collect_results workspace c).
Proof.
  unfold collect_results.
  apply reads_only_bind; [apply reads_only_collect_phases|].
  intros [times|]; [|reader]. unfold index. reader.
Qed.

Lemma reads_only_collect_all (workspace : path) (configs : list BenchConfig) :
  forall results, reads_only (collect_all workspace configs results).
Proof.
  induction configs as [|c rest IH]; intros results; cbn [collect_all].
  - reader.
  - apply reads_only_bind; [apply reads_only_collect_results|].
    intros [r|]; (apply reads_only_bind; [unfold print; reader | intros _; apply IH]).
Qed.

Lemma reads_only_collect_and_report `{Host} (args : Args) (workspace : path) :
  reads_only (collect_and_report args workspace).
Proof.
  unfold collect_and_report, print, eprint, write_text.
  apply reads_only_bind; [reader|]. intros _.
  apply reads_only_bind; [apply reads_only_collect_all|].
  intros [|r rs]; [reader|].
  destruct (output args); reader.
Qed.

(** ** The exit status *)

Lemma collect_all_value (workspace : path) (configs : list BenchConfig) :
  forall results w,
    (collect_all workspace configs results w).1
    = gather (outcome_of workspace (fs w) <$> configs) results.
Proof.
  induction configs as [|c rest IH]; intros results w; [reflexivity|].
  rewrite fmap_cons. cbn [collect_all gather]. rewrite bind_run.
  destruct (reads_only_collect_results workspace c w) as [(ev & Hw1 & _) Hval].
  specialize (Hval (world_of (fs w)) eq_refl). unfold outcome_of at 1. rewrite Hval.
  destruct (collect_results workspace c w) as [[[r|]|e] w1];
    cbn [fst snd] in Hw1 |- *; subst w1; [| |reflexivity];
    unfold print, emit; rewrite bind_run; cbn beta iota; rewrite IH; reflexivity.
Qed.



Lemma reports_start_nothing (events : list event) :
  Forall is_report events -> statuses events = [] /\ launches events = [].
Proof.
  induction 1 as [|ev events Hev _ [IH1 IH2]]; [auto|].
  unfold statuses, launches in *. cbn [omap list_omap].
  destruct ev; cbn in *; try contradiction; auto.
Qed.

(** One benchmark run, step by step. *)
Lemma run_benchmark_step `{Host} (c : BenchConfig) (w : World) :
  exists env result tree,
    env !! "LANES" = Some (str_int (lanes c)) /\
    env !! "ITERATIONS" = Some (str_int (iterations c)) /\
    let launched :=
      {| fs := tree; environ := environ w;
         trace := (trace w ++
                   [Stdout ("Running benchmark: lanes=" +:+ str_int (lanes c)
                              +:+ ", iterations=" +:+ str_int (iterations c));
                    SubprocessRun BENCH_COMMAND get_workspace_root env
                      (returncode result)])%list |} in
    run_benchmark c w =
      if decide (returncode result ≠ 0) then
        (Return false,
         with_events launched [Stderr ("Benchmark failed: " +:+ stderr result)])
      else (Return true, launched).
Proof.
  unfold run_benchmark, run_subprocess, os_environ_copy, print, eprint, emit,
    mbind, M_bind, mret, M_ret.
  cbn beta iota zeta.
  set (env := <["RUSTFLAGS" := _]> (<["LANES" := _]> (<["ITERATIONS" := _]> (environ w)))).
  cbn [fs environ trace].
  destruct (subprocess_run BENCH_COMMAND get_workspace_root env (fs w))
    as [result tree] eqn:Hrun.
  exists env, result, tree. split; [|split].
  - subst env. rewrite lookup_insert_ne, lookup_insert_eq by discriminate. reflexivity.
  - subst env.
    rewrite lookup_insert_ne, lookup_insert_ne, lookup_insert_eq by discriminate.
    reflexivity.
  - unfold with_events.
    destruct (decide (returncode result ≠ 0));
      cbn [fs environ trace]; rewrite <- ?app_assoc; reflexivity.
Qed.

(** The loop that runs the benchmarks: it starts the configurations in
    order and stops at the first one that fails. *)
Lemma run_benchmarks_spec `{Host} (configs : list BenchConfig) :
  forall w, exists events k,
    trace (run_benchmarks configs w).2 = (trace w ++ events)%list /\
    environ (run_benchmarks configs w).2 = environ w /\
    (collecting_line ∉ events) /\
    launches events = launch_key <$> take k configs /\
    (((run_benchmarks configs w).1 = Return None /\
      k = length configs /\ Forall (fun s => s = 0) (statuses events)) \/
     ((run_benchmarks configs w).1 = Return (Some 1) /\
      exists k' s, k = S k' /\ s ≠ 0 /\ statuses events = (replicate k' 0 ++ [s])%list)).
Proof.
  induction configs as [|c rest IH]; intros w.
  - exists [], 0%nat. cbn. rewrite app_nil_r.
    repeat split; auto using not_elem_of_nil.
  - cbn [run_benchmarks]. rewrite bind_run.
    destruct (run_benchmark_step c w) as (env & result & tree & Hl & Hi & Heq).
    cbv zeta in Heq. rewrite Heq. clear Heq.
    destruct (decide (returncode result ≠ 0)) as [Hfail|Hok].
    + cbn [negb]. unfold eprint, emit. rewrite bind_run. cbn beta iota.
      eexists _, 1%nat. cbn [snd fst trace environ with_events fs].
      rewrite <- !app_assoc. split; [reflexivity|]. split; [reflexivity|].
      split; [|split].
      * cbn [app]. rewrite !not_elem_of_cons. repeat split; try discriminate.
        apply not_elem_of_nil.
      * cbn. unfold launch_key. rewrite Hl, Hi. reflexivity.
      * right. split; [reflexivity|]. exists 0%nat, (returncode result). auto.
    + cbn [negb].
      match goal with |- context [run_benchmarks rest ?w1] =>
        destruct (IH w1) as (events & k & Htr & Henv & Hnc & Hla & Hcase)
      end.
      eexists _, (S k). cbn [trace environ] in Htr, Henv.
      rewrite Htr, Henv, <- app_assoc.
      split; [reflexivity|]. split; [reflexivity|]. split; [|split].
      * cbn [app]. rewrite !not_elem_of_cons. repeat split; try discriminate.
        exact Hnc.
      * cbn. unfold launch_key at 1. rewrite Hl, Hi. f_equal. exact Hla.
      * assert (Hzero : returncode result = 0).
        { destruct (decide (returncode result = 0)); [assumption | contradiction]. }
        unfold statuses in *. cbn [app omap list_omap status_of].
        destruct Hcase as [(Hr & Hk & Hall)|(Hr & k' & s & Hk & Hs & Hst)].
        -- left. split; [exact Hr|]. split; [cbn; congruence|].
           constructor; [exact Hzero | exact Hall].
        -- right. split; [exact Hr|]. exists (S k'), s.
           split; [congruence|]. split; [exact Hs|].
           cbn [replicate app]. f_equal; [exact Hzero | exact Hst].
Qed.


Lemma run_script_eq `{Host} (args : Args) (w : World) :
  run_script args w = (exit_status (main args w).1, (main args w).2).
Proof. unfold run_script. destruct (main args w). reflexivity. Qed.





(** * Further properties *)

(** ** Formatting *)

Lemma app_string_inj_r (a b c : string) : a +:+ c = b +:+ c -> a = b.
Proof.
  revert b. induction a as [|x a IH]; intros [|y b] H.
  - reflexivity.
  - apply (f_equal String.length) in H. rewrite !length_app_string in H.
    cbn [String.length] in H. lia.
  - apply (f_equal String.length) in H. rewrite !length_app_string in H.
    cbn [String.length] in H. lia.
  - change (String x (a +:+ c) = String y (b +:+ c)) in H.
    injection H as -> H. f_equal. apply IH, H.
Qed.

Lemma app_string_inj_l (a b c : string) : a +:+ b = a +:+ c -> b = c.
Proof.
  induction a as [|x a IH]; intros H; [exact H|].
  change (String x (a +:+ b) = String x (a +:+ c)) in H.
  injection H as H. apply IH, H.
Qed.

(** The numeral of a natural number never starts with a dollar sign. *)
Lemma pretty_N_go_no_dollar (x : N) (s s' : string) :
  (forall t, s ≠ String "$" t) -> pretty_N_go x s ≠ String "$" s'.
Proof.
  revert s. induction (N.lt_wf_0 x) as [x _ IH]; intros s Hs.
  assert (x = 0 \/ 0 < x)%N as [->|Hx] by lia.
  - rewrite pretty_N_go_0. apply Hs.
  - rewrite pretty_N_go_step by assumption. apply IH.
    + apply N.div_lt; lia.
    + intros t. unfold pretty_N_char. repeat case_match; discriminate.
Qed.

Lemma str_int_no_dollar (n : Z) (s : string) : str_int n ≠ String "$" s.
Proof.
  unfold str_int, pretty, pretty_Z. destruct n as [|p|p]; [discriminate| |discriminate].
  unfold pretty, pretty_positive, pretty, pretty_N.
  rewrite decide_False by discriminate.
  apply pretty_N_go_no_dollar. discriminate.
Qed.

(** X1. [format_power_of_two] is injective: the text of the column
    determines the number, whether it is written as an exponent or as a
    plain numeral. *)
Theorem format_power_of_two_inj (n m : Z) :
  format_power_of_two n = format_power_of_two m -> n = m.
Proof.
  unfold format_power_of_two.
  destruct (decide (n > 0 /\ Z.land n (n - 1) = 0)) as [[Hn Hln]|Hn'];
    destruct (decide (m > 0 /\ Z.land m (m - 1) = 0)) as [[Hm Hlm]|Hm']; cbv zeta.
  - intros H. apply app_string_inj_l, app_string_inj_r in H.
    apply (inj pretty) in H.
    rewrite (land_pred_zero n), (land_pred_zero m) by (assumption || lia).
    rewrite H. reflexivity.
  - intros H. symmetry in H. exfalso. exact (str_int_no_dollar _ _ H).
  - intros H. exfalso. exact (str_int_no_dollar _ _ H).
  - apply (inj pretty).
Qed.

Lemma format_power_of_two_inj_witness :
  format_power_of_two 4096 = format_power_of_two (2 ^ 12) /\ 4096 = 2 ^ 12.
Proof.
  split; [reflexivity|]. apply format_power_of_two_inj. reflexivity.
Defined.

Lemma rows_with_separators_rows (results : list BenchResult) :
  filter (fun line => line ≠ separator) (rows_with_separators results)
  = table_row <$> results.
Proof.
  induction results as [|r rest IH]; [reflexivity|].
  cbn [rows_with_separators]. rewrite filter_cons_True by apply table_row_not_separator.
  rewrite fmap_cons. f_equal. rewrite filter_app, IH.
  destruct rest as [|next rest']; [reflexivity|].
  destruct (decide _); [|reflexivity].
  rewrite filter_cons_False by (intros H; apply H; reflexivity). reflexivity.
Qed.

Lemma rows_with_separators_length (results : list BenchResult) :
  length (rows_with_separators results) = (length results + transitions results)%nat.
Proof.
  induction results as [|r rest IH]; [reflexivity|].
  cbn [rows_with_separators transitions length]. rewrite length_app, IH.
  destruct rest as [|next rest']; [reflexivity|].
  destruct (decide _); cbn [length]; lia.
Qed.

(** X2. Every result has its row in the table, once and in order: the
    lines between the header and the footer, the separators left out, are the
    rows of the results; and the table has 11 lines more than there are
    results and lane changes. *)
Theorem table_rows_preserved (results : list BenchResult) :
  exists body,
    table_lines results = (TABLE_HEADER ++ body ++ TABLE_FOOTER)%list /\
    filter (fun line => line ≠ separator) body = table_row <$> results /\
    length (table_lines results) = (11 + length results + transitions results)%nat.
Proof.
  exists (rows_with_separators results).
  assert (Hlines : table_lines results
                   = (TABLE_HEADER ++ rows_with_separators results ++ TABLE_FOOTER)%list).
  { unfold table_lines. cbv zeta. rewrite table_loop_rows. cbn [pending].
    rewrite <- app_assoc. reflexivity. }
  split; [exact Hlines|]. split; [apply rows_with_separators_rows|].
  rewrite Hlines, !length_app, rows_with_separators_length.
  cbn [length TABLE_HEADER TABLE_FOOTER]. lia.
Qed.

(** ** The workspace *)

(** X3. The workspace root is two levels above the script: for a script
    installed as <root>/<dir>/<file> it is <root>, whatever the two names
    are; and a script path of fewer than two components gives the root of the
    file system. *)
Theorem get_workspace_root_spec `{Host} :
  (forall root dir file,
     script_file = (root ++ [dir; file])%list -> get_workspace_root = root) /\
  ((length script_file <= 2)%nat -> get_workspace_root = []).
Proof.
  unfold get_workspace_root, parent. cbv zeta. split.
  - intros root dir file ->.
    change (root ++ [dir; file])%list with (root ++ [dir] ++ [file])%list.
    rewrite app_assoc, !removelast_last. reflexivity.
  - destruct script_file as [|a [|b [|c l]]]; cbn; intros Hl; try reflexivity. lia.
Qed.

Lemma get_workspace_root_witness :
  @get_workspace_root quiet_host = ["repo"] /\ @get_workspace_root shallow_host = [].
Proof.
  split.
  - apply (proj1 (@get_workspace_root_spec quiet_host) ["repo"] "tools" "bench_iterated_f.py").
    reflexivity.
  - apply (proj2 (@get_workspace_root_spec shallow_host)). cbn. lia.
Defined.

(** ** Running one benchmark *)

Lemma run_benchmark_eq `{Host} (c : BenchConfig) (w : World) :
  exists env result tree,
    subprocess_run BENCH_COMMAND get_workspace_root env (fs w) = (result, tree) /\
    run_benchmark c w =
      (Return (bool_decide (returncode result = 0)),
       {| fs := tree; environ := environ w;
          trace := (trace w ++
                    [Stdout ("Running benchmark: lanes=" +:+ str_int (lanes c)
                               +:+ ", iterations=" +:+ str_int (iterations c));
                     SubprocessRun BENCH_COMMAND get_workspace_root env
                       (returncode result)] ++
                    (if bool_decide (returncode result = 0) then []
                     else [Stderr ("Benchmark failed: " +:+ stderr result)]))%list |}).
Proof.
  unfold run_benchmark, run_subprocess, os_environ_copy, print, eprint, emit,
    mbind, M_bind, mret, M_ret.
  cbn beta iota zeta.
  set (env := <["RUSTFLAGS" := _]> (<["LANES" := _]> (<["ITERATIONS" := _]> (environ w)))).
  cbn [fs environ trace].
  destruct (subprocess_run BENCH_COMMAND get_workspace_root env (fs w))
    as [result tree] eqn:Hrun.
  exists env, result, tree. split; [exact Hrun|].
  destruct (decide (returncode result ≠ 0)) as [Hne|He].
  - rewrite bool_decide_eq_false_2 by exact Hne.
    cbn [fs environ trace]. rewrite <- !app_assoc. reflexivity.
  - assert (Hz : returncode result = 0).
    { destruct (decide (returncode result = 0)); [assumption | contradiction]. }
    rewrite bool_decide_eq_true_2 by exact Hz.
    cbn [fs environ trace]. rewrite <- !app_assoc, app_nil_r. reflexivity.
Qed.


(** ** More on reading a timing *)

(** X5. [read_benchmark_time] changes neither the file system nor the
    environment, and it prints at most one line: nothing when it returns a
    timing or raises, and, when it returns absent, either nothing or one
    diagnostic on the error stream. *)
Theorem read_benchmark_time_output (bench_dir : path) (w : World) :
  let out := read_benchmark_time bench_dir w in
  fs out.2 = fs w /\ environ out.2 = environ w /\
  (out.2 = w \/
   out.1 = Return None /\ exists e, out.2 = with_stderr w (read_error bench_dir e)).
Proof.
  cbv zeta. run_read. destruct (negb _); [auto|].
  destruct (lookup_path _ _) as [[[msg|v]|]|]; cbn; auto.
  - split; [reflexivity|]. split; [reflexivity|]. right. split; [reflexivity|].
    exists (JSONDecodeError msg). reflexivity.
  - destruct (getitem v "mean") as [mean|e] eqn:Hm; cbn.
    + destruct (getitem mean "point_estimate") as [est|e] eqn:He; cbn.
      * destruct (truediv est 1000000) as [t|e] eqn:Ht; cbn; [auto|].
        destruct est; cbn in Ht; try (injection Ht as <-; cbn; auto);
          try discriminate;
          unfold int_truediv in Ht; cbv zeta in Ht;
          destruct (binary_normalize _ _ _ _ _); simplify_eq; cbn; auto.
      * destruct mean; cbn in He; simplify_eq; cbn; auto.
        destruct (assoc "point_estimate" items); simplify_eq. cbn.
        split; [reflexivity|]. split; [reflexivity|]. right. split; [reflexivity|].
        exists (KeyError "point_estimate"). reflexivity.
    + destruct v; cbn in Hm; simplify_eq; cbn; auto.
      destruct (assoc "mean" items); simplify_eq. cbn.
      split; [reflexivity|]. split; [reflexivity|]. right. split; [reflexivity|].
      exists (KeyError "mean"). reflexivity.
Qed.

(** X6. A "point_estimate" that is present but is not a number (a string,
    null, a list or a mapping) makes the division raise a [TypeError], which
    the handler does not catch: [read_benchmark_time] raises and prints
    nothing. *)
Theorem read_benchmark_time_estimate_type (bench_dir : path) (w : World)
    (items items' : list (string * json)) (estimate : json) :
  lookup_path (fs w) (estimates_path bench_dir) = Some (File (Document (JDict items))) ->
  assoc "mean" items = Some (JDict items') ->
  assoc "point_estimate" items' = Some estimate ->
  is_number estimate = false ->
  read_benchmark_time bench_dir w
  = (Raise (TypeError ("unsupported operand type(s) for /: '" +:+ type_name estimate
                         +:+ "' and 'int'")), w).
Proof.
  intros Hf Hm He Hn. run_read. rewrite Hf.
  rewrite bool_decide_eq_true_2 by eauto. cbn [negb]. rewrite Hf.
  cbn [getitem]. rewrite Hm. cbn [getitem]. rewrite He.
  destruct estimate; try discriminate; reflexivity.
Qed.

Lemma read_benchmark_time_estimate_type_witness :
  read_benchmark_time bench
    (stats_world (Document (JDict [("mean", JDict [("point_estimate", JStr "1.5ms")])])))
  = (Raise (TypeError "unsupported operand type(s) for /: 'str' and 'int'"),
     stats_world (Document (JDict [("mean", JDict [("point_estimate", JStr "1.5ms")])]))).
Proof.
  apply (read_benchmark_time_estimate_type bench _
           [("mean", JDict [("point_estimate", JStr "1.5ms")])]
           [("point_estimate", JStr "1.5ms")] (JStr "1.5ms")); reflexivity.
Defined.

(** X7. A boolean "point_estimate" is taken as a number: [true] reads as
    one nanosecond and [false] as zero. *)
Theorem read_benchmark_time_boolean (bench_dir : path) (w : World)
    (items items' : list (string * json)) (b : bool) :
  lookup_path (fs w) (estimates_path bench_dir) = Some (File (Document (JDict items))) ->
  assoc "mean" items = Some (JDict items') ->
  assoc "point_estimate" items' = Some (JBool b) ->
  read_benchmark_time bench_dir w
  = (Return (Some (if b then 1e-6 else 0)%float), w).
Proof.
  intros Hf Hm He. run_read. rewrite Hf.
  rewrite bool_decide_eq_true_2 by eauto. cbn [negb]. rewrite Hf.
  cbn [getitem]. rewrite Hm. cbn [getitem]. rewrite He.
  destruct b; reflexivity.
Qed.

Lemma read_benchmark_time_boolean_witness :
  read_benchmark_time bench
    (stats_world (Document (JDict [("mean", JDict [("point_estimate", JBool true)])])))
  = (Return (Some 1e-6%float),
     stats_world (Document (JDict [("mean", JDict [("point_estimate", JBool true)])]))).
Proof.
  apply (read_benchmark_time_boolean bench _
           [("mean", JDict [("point_estimate", JBool true)])]
           [("point_estimate", JBool true)] true); reflexivity.
Defined.

(** X8. When new/estimates.json exists but is a directory, opening it
    raises [IsADirectoryError], which the handler does not catch. *)
Theorem read_benchmark_time_directory (bench_dir : path) (w : World)
    (entries : list (string * node)) :
  lookup_path (fs w) (estimates_path bench_dir) = Some (Dir entries) ->
  read_benchmark_time bench_dir w
  = (Raise (IsADirectoryError (estimates_path bench_dir)), w).
Proof.
  intros Hf. run_read. rewrite Hf.
  rewrite bool_decide_eq_true_2 by eauto. cbn [negb]. rewrite Hf. reflexivity.
Qed.

Lemma read_benchmark_time_directory_witness :
  read_benchmark_time bench
    (world_of (Dir [("bench", Dir [("new", Dir [("estimates.json", Dir [])])])]))
  = (Raise (IsADirectoryError ["bench"; "new"; "estimates.json"]),
     world_of (Dir [("bench", Dir [("new", Dir [("estimates.json", Dir [])])])])).
Proof.
  apply (read_benchmark_time_directory bench _ []). reflexivity.
Defined.

(** ** More on finding a directory *)

(** X9. When the result root of a phase exists but is a regular file,
    listing it raises [NotADirectoryError]: [find_benchmark_dir] raises
    instead of returning absent, and so does [collect_results] when the phase
    is the first one. *)
Theorem find_benchmark_dir_not_a_directory (workspace : path) (phase : string)
    (c : BenchConfig) (w : World) (data : file_data) :
  lookup_path (fs w) (criterion_root workspace phase) = Some (File data) ->
  find_benchmark_dir workspace phase c w
    = (Raise (NotADirectoryError (criterion_root workspace phase)), w) /\
  (phase = "witness_generation" ->
   collect_results workspace c w
     = (Raise (NotADirectoryError (criterion_root workspace phase)), w)).
Proof.
  intros Hroot.
  assert (Hfind : find_benchmark_dir workspace phase c w
                  = (Raise (NotADirectoryError (criterion_root workspace phase)), w)).
  { unfold find_benchmark_dir, mbind, M_bind, mret, M_ret, path_exists, iterdir.
    unfold criterion_root in *. cbn beta iota zeta. rewrite Hroot.
    rewrite bool_decide_eq_true_2 by eauto. cbn [negb]. rewrite Hroot. reflexivity. }
  split; [exact Hfind|]. intros ->.
  unfold collect_results, PHASES. cbn [collect_phases]. rewrite !bind_run, Hfind.
  reflexivity.
Qed.

Lemma find_benchmark_dir_not_a_directory_witness :
  let w := world_of (Dir [("repo", Dir [("target", Dir [("criterion", Dir [
             ("iterated_f_witness_generation", File (Unparseable ""))])])])]) in
  find_benchmark_dir repo "witness_generation" {| lanes := 1; iterations := 8192 |} w
    = (Raise (NotADirectoryError
                ["repo"; "target"; "criterion"; "iterated_f_witness_generation"]), w).
Proof.
  intros w.
  apply (find_benchmark_dir_not_a_directory repo "witness_generation" _ w (Unparseable "")).
  reflexivity.
Defined.

(** ** Computations that write no file *)

Lemma with_events_inj (w : World) (e1 e2 : list event) :
  with_events w e1 = with_events w e2 -> e1 = e2.
Proof. unfold with_events. intros [= H]. apply app_inv_head in H. exact H. Qed.

Lemma writes_app (e1 e2 : list event) : writes (e1 ++ e2) = (writes e1 ++ writes e2)%list.
Proof. apply omap_app. Qed.

Lemma writes_nothing_still {A : Type} (m : M A) :
  (forall w, (m w).2 = w) -> writes_nothing m.
Proof. intros Hm w. exists []. rewrite Hm, with_events_nil. auto. Qed.

Lemma writes_nothing_ret {A : Type} (a : A) : writes_nothing (mret a).
Proof. apply writes_nothing_still. reflexivity. Qed.

Lemma writes_nothing_lift {A : Type} (r : outcome A) : writes_nothing (lift r).
Proof. apply writes_nothing_still. reflexivity. Qed.

Lemma writes_nothing_path_exists (p : path) : writes_nothing (path_exists p).
Proof. apply writes_nothing_still. reflexivity. Qed.

Lemma writes_nothing_iterdir (p : path) : writes_nothing (iterdir p).
Proof.
  apply writes_nothing_still. intros w. unfold iterdir.
  destruct (lookup_path (fs w) p) as [[|]|]; reflexivity.
Qed.

Lemma writes_nothing_json_load (p : path) : writes_nothing (json_load p).
Proof.
  apply writes_nothing_still. intros w. unfold json_load.
  destruct (lookup_path (fs w) p) as [[[|]|]|]; reflexivity.
Qed.

Lemma writes_nothing_print (line : string) : writes_nothing (print line).
Proof. intros w. exists [Stdout line]. auto. Qed.

Lemma writes_nothing_eprint (line : string) : writes_nothing (eprint line).
Proof. intros w. exists [Stderr line]. auto. Qed.

Lemma writes_nothing_bind {A B : Type} (m : M A) (f : A -> M B) :
  writes_nothing m -> (forall a, writes_nothing (f a)) -> writes_nothing (m ≫= f).
Proof.
  intros Hm Hf w. destruct (Hm w) as (e1 & Hw1 & He1). rewrite bind_run.
  destruct (m w) as [[a|e] w1]; cbn in Hw1; subst w1.
  - destruct (Hf a (with_events w e1)) as (e2 & Hw2 & He2).
    exists (e1 ++ e2)%list. rewrite Hw2, with_events_app, writes_app, He1, He2. auto.
  - exists e1. auto.
Qed.

Lemma writes_nothing_try {A : Type} (body : M A) (handler : exn -> option (M A)) :
  writes_nothing body ->
  (forall e h, handler e = Some h -> writes_nothing h) ->
  writes_nothing (try_except body handler).
Proof.
  intros Hm Hh w. destruct (Hm w) as (e1 & Hw1 & He1). unfold try_except.
  destruct (body w) as [[a|e] w1]; cbn in Hw1; subst w1.
  - exists e1. auto.
  - destruct (handler e) as [h|] eqn:Hhe; [|exists e1; auto].
    destruct (Hh e h Hhe (with_events w e1)) as (e2 & Hw2 & He2).
    exists (e1 ++ e2)%list. rewrite Hw2, with_events_app, writes_app, He1, He2. auto.
Qed.

Create HintDb quiet_db.
#[local] Hint Resolve writes_nothing_ret writes_nothing_lift writes_nothing_path_exists
  writes_nothing_iterdir writes_nothing_json_load writes_nothing_print
  writes_nothing_eprint : quiet_db.

Ltac quiet :=
  repeat first
    [ apply writes_nothing_bind; [|intros ?]
    | solve [auto with quiet_db]
    | match goal with
      | |- writes_nothing (if ?b then _ else _) => destruct b
      | |- writes_nothing (match ?x with _ => _ end) => destruct x
      end ].

Lemma writes_nothing_find_benchmark_dir (workspace : path) (phase : string)
    (c : BenchConfig) :
  writes_nothing (find_benchmark_dir workspace phase c).
Proof. unfold find_benchmark_dir. quiet. Qed.

Lemma writes_nothing_read_benchmark_time (bench_dir : path) :
  writes_nothing (read_benchmark_time bench_dir).
Proof.
  unfold read_benchmark_time. cbv zeta. quiet.
  apply writes_nothing_try; [quiet|].
  intros e h Hh. destruct e; simplify_eq; quiet.
Qed.

Lemma writes_nothing_collect_phases (workspace : path) (c : BenchConfig)
    (phases : list string) :
  forall times, writes_nothing (collect_phases workspace c phases times).
Proof.
  induction phases as [|phase rest IH]; intros times; cbn [collect_phases].
  - quiet.
  - apply writes_nothing_bind; [apply writes_nothing_find_benchmark_dir|].
    intros [bench_dir|]; [|quiet].
    apply writes_nothing_bind; [apply writes_nothing_read_benchmark_time|].
    intros [t|]; [apply IH | quiet].
Qed.

Lemma writes_nothing_collect_results (workspace : path) (c : BenchConfig) :
  writes_nothing (collect_results workspace c).
Proof.
  unfold collect_results.
  apply writes_nothing_bind; [apply writes_nothing_collect_phases|].
  intros [times|]; [|quiet]. unfold index. quiet.
Qed.


(** ** The script as a whole *)

(** The two ways through [main]. *)
Lemma main_cases `{Host} (args : Args) (w : World) :
  (skip_run args = true ->
   main args w = collect_and_report args get_workspace_root w) /\
  (skip_run args = false ->
   let ran := run_benchmarks BENCH_CONFIGS (with_events w [Stdout "Running benchmarks..."]) in
   (ran.1 = Return (Some 1) /\ main args w = (Return 1, ran.2)) \/
   (ran.1 = Return None /\ main args w = collect_and_report args get_workspace_root ran.2)).
Proof.
  unfold main. cbv zeta. rewrite bind_run. split; intros ->; cbn [negb].
  - rewrite ret_run. reflexivity.
  - rewrite bind_run. unfold print, emit. cbn beta iota.
    change {| fs := fs w; environ := environ w;
              trace := (trace w ++ [Stdout "Running benchmarks..."])%list |}
      with (with_events w [Stdout "Running benchmarks..."]).
    destruct (run_benchmarks_spec BENCH_CONFIGS
                (with_events w [Stdout "Running benchmarks..."]))
      as (ev & k & _ & _ & _ & _ & Hcase).
    destruct (run_benchmarks BENCH_CONFIGS _) as [r1 w1]. cbn [fst snd] in *.
    destruct Hcase as [(-> & _)|(-> & _)]; [right | left]; auto.
Qed.

(** What the loop that runs the benchmarks adds to the trace. *)
Lemma run_benchmarks_events `{Host} (configs : list BenchConfig) :
  forall w, exists events,
    trace (run_benchmarks configs w).2 = (trace w ++ events)%list /\
    environ (run_benchmarks configs w).2 = environ w /\
    writes events = [] /\
    Forall is_benchmark_run events /\
    (length (statuses events) <= length configs)%nat /\
    ((forall argv cwd env tree, (subprocess_run argv cwd env tree).2 = tree) ->
     fs (run_benchmarks configs w).2 = fs w).
Proof.
  induction configs as [|c rest IH]; intros w.
  - exists []. cbn. rewrite app_nil_r. auto 10.
  - cbn [run_benchmarks]. rewrite bind_run.
    destruct (run_benchmark_eq c w) as (env & result & tree & Hrun & ->).
    destruct (bool_decide (returncode result = 0)); cbn [negb].
    + cbn [app].
      match goal with |- context [run_benchmarks rest ?w1] =>
        destruct (IH w1) as (events & Htr & Henv & Hwr & Hall & Hlen & Hfs)
      end.
      cbn [trace environ fs] in Htr, Henv, Hfs.
      eexists. rewrite Htr, Henv, <- app_assoc.
      split; [reflexivity|]. split; [reflexivity|]. split; [|split; [|split]].
      * rewrite writes_app, Hwr. reflexivity.
      * apply Forall_app. split; [|exact Hall]. repeat constructor.
      * unfold statuses in *. rewrite omap_app, length_app. cbn. lia.
      * intros Hhost. rewrite (Hfs Hhost). specialize (Hhost BENCH_COMMAND
          get_workspace_root env (fs w)). rewrite Hrun in Hhost. exact Hhost.
    + unfold eprint, emit. rewrite bind_run. cbn beta iota.
      eexists. cbn [snd trace environ fs]. rewrite <- !app_assoc.
      split; [reflexivity|]. split; [reflexivity|]. split; [|split; [|split]].
      * reflexivity.
      * repeat constructor.
      * cbn. lia.
      * intros Hhost. specialize (Hhost BENCH_COMMAND get_workspace_root env (fs w)).
        rewrite Hrun in Hhost. exact Hhost.
Qed.



(** ** More on collecting *)

(** X11. What [collect_results] returns depends on the file system only,
    not on the environment or on what was printed before; and collecting
    changes neither the file system nor the environment, starts no process and
    writes no file. *)
Theorem collect_results_file_system_only (workspace : path) (c : BenchConfig)
    (w w2 : World) :
  fs w2 = fs w ->
  (collect_results workspace c w2).1 = (collect_results workspace c w).1 /\
  exists events,
    (collect_results workspace c w).2 = with_events w events /\
    statuses events = [] /\ writes events = [].
Proof.
  intros Hfs. destruct (reads_only_collect_results workspace c w) as [(ev & Hw & Hev) Hval].
  split; [apply Hval, Hfs|]. exists ev. split; [exact Hw|].
  split; [apply reports_start_nothing, Hev|].
  destruct (writes_nothing_collect_results workspace c w) as (ev' & Hw' & Hwr).
  rewrite Hw in Hw'. apply with_events_inj in Hw'. subst ev'. exact Hwr.
Qed.

Lemma collect_results_file_system_only_witness :
  let c := {| lanes := 1; iterations := 8192 |} in
  let w2 := {| fs := fs scenario_world; environ := {["RUSTFLAGS" := "-O"]};
               trace := [Stdout "earlier"] |} in
  (collect_results repo c w2).1 = (collect_results repo c scenario_world).1.
Proof.
  intros c w2.
  apply (collect_results_file_system_only repo c scenario_world w2). reflexivity.
Defined.

Lemma phase_time_present (workspace : path) (c : BenchConfig) (phase : string)
    (w : World) (t : float) :
  (phase_time workspace c phase w).1 = Return (Some t) ->
  exists bench_dir,
    find_benchmark_dir workspace phase c w = (Return (Some bench_dir), w) /\
    read_benchmark_time bench_dir w = (Return (Some t), w).
Proof.
  unfold phase_time. rewrite bind_run.
  pose proof (find_benchmark_dir_world workspace phase c w) as Hw.
  destruct (find_benchmark_dir workspace phase c w) as [[[d|]|e] w1];
    cbn [snd] in Hw; subst w1; cbn; try discriminate.
  destruct (read_benchmark_time d w) as [[[t'|]|e] w2] eqn:Hr; cbn; try discriminate.
  intros [= ->]. apply read_benchmark_time_present in Hr as Hw2. subst w2. eauto.
Qed.

Lemma collect_phases_warning (workspace : path) (c : BenchConfig)
    (before : list string) (phase : string) (after : list string) (w : World) :
  (forall p, p ∈ before -> exists t, (phase_time workspace c p w).1 = Return (Some t)) ->
  (find_benchmark_dir workspace phase c w).1 = Return None ->
  forall times,
    collect_phases workspace c (before ++ phase :: after) times w
    = (Return None, with_events w [missing_dir_warning phase c]).
Proof.
  intros Hbefore Hnone. induction before as [|p rest IH]; intros times.
  - cbn [app collect_phases]. rewrite bind_run.
    pose proof (find_benchmark_dir_world workspace phase c w) as Hw.
    destruct (find_benchmark_dir workspace phase c w) as [r w1].
    cbn [fst snd] in Hnone, Hw. subst r w1. reflexivity.
  - cbn [app collect_phases]. rewrite bind_run.
    destruct (Hbefore p) as [t Ht]; [left|].
    apply phase_time_present in Ht as (d & -> & Hr). rewrite bind_run, Hr.
    apply IH. intros q Hq. apply Hbefore. right. exact Hq.
Qed.

(** X12. When the phases before a phase all yield a timing and that phase
    has no directory, [collect_results] returns absent and prints exactly one
    line, the warning that names this phase and the configuration; the phases
    after it are not looked at. *)
Theorem collect_results_warning (workspace : path) (c : BenchConfig)
    (before : list string) (phase : string) (after : list string) (w : World) :
  PHASES = (before ++ phase :: after)%list ->
  (forall p, p ∈ before -> exists t, (phase_time workspace c p w).1 = Return (Some t)) ->
  (find_benchmark_dir workspace phase c w).1 = Return None ->
  collect_results workspace c w
  = (Return None, with_events w [missing_dir_warning phase c]).
Proof.
  intros Hphases Hbefore Hnone. unfold collect_results. rewrite bind_run, Hphases.
  rewrite (collect_phases_warning workspace c before phase after w Hbefore Hnone).
  reflexivity.
Qed.

Lemma collect_results_warning_witness :
  collect_results repo {| lanes := 1; iterations := 8192 |} partial_world
  = (Return None,
     with_events partial_world
       [Stdout ("Warning: No benchmark dir found for proof_generation with config "
                  +:+ "BenchConfig(lanes=1, iterations=8192)")]).
Proof.
  apply (collect_results_warning repo {| lanes := 1; iterations := 8192 |}
           ["witness_generation"] "proof_generation" ["proof_verification"] partial_world).
  - reflexivity.
  - intros p Hp. apply list_elem_of_singleton in Hp. subst p.
    eexists. vm_compute. reflexivity.
  - vm_compute. reflexivity.
Defined.

(** ** The order of the report *)

Lemma outcome_config (workspace : path) (tree : node) (c : BenchConfig) (r : BenchResult) :
  outcome_of workspace tree c = Return (Some r) -> config r = c.
Proof.
  unfold outcome_of. rewrite collect_results_sequence.
  destruct (phase_time workspace c "witness_generation" _).1 as [[t0|]|e0]; try discriminate.
  destruct (phase_time workspace c "proof_generation" _).1 as [[t1|]|e1]; try discriminate.
  destruct (phase_time workspace c "proof_verification" _).1 as [[t2|]|e2]; try discriminate.
  intros [= <-]. reflexivity.
Qed.

Lemma gather_sublist (f : BenchConfig -> outcome (option BenchResult))
    (xs : list BenchConfig) :
  (forall x r, f x = Return (Some r) -> config r = x) ->
  forall results rs,
    gather (f <$> xs) results = Return rs ->
    exists rs', rs = (results ++ rs')%list /\ config <$> rs' `sublist_of` xs.
Proof.
  intros Hf. induction xs as [|x rest IH]; intros results rs.
  - cbn. intros [= <-]. exists []. rewrite app_nil_r. split; [reflexivity | constructor].
  - rewrite fmap_cons. cbn [gather]. destruct (f x) as [[r|]|e] eqn:Hx; [| |discriminate].
    + intros Hg. apply IH in Hg as (rs' & -> & Hsub). exists (r :: rs').
      rewrite <- app_assoc. split; [reflexivity|].
      rewrite fmap_cons, (Hf x r Hx). constructor. exact Hsub.
    + intros Hg. apply IH in Hg as (rs' & -> & Hsub). exists rs'.
      split; [reflexivity|]. constructor. exact Hsub.
Qed.

Lemma sublist_sorted {A : Type} (R : relation A) (l1 l2 : list A) :
  l1 `sublist_of` l2 -> StronglySorted R l2 -> StronglySorted R l1.
Proof.
  induction 1 as [|x l1 l2 Hsub IH|x l1 l2 Hsub IH]; intros Hs.
  - constructor.
  - apply StronglySorted_cons in Hs as [Hall Hs]. constructor; [auto|].
    rewrite Forall_forall in *. intros y Hy. apply Hall. eapply elem_of_sublist; eauto.
  - apply StronglySorted_cons in Hs as [_ Hs]. auto.
Qed.

Lemma sorted_fmap_inv {A B : Type} (f : A -> B) (R : relation B) (l : list A) :
  StronglySorted R (f <$> l) -> StronglySorted (fun a b => R (f a) (f b)) l.
Proof.
  induction l as [|a l IH]; [constructor|].
  rewrite fmap_cons. intros Hs. apply StronglySorted_cons in Hs as [Hall Hs].
  constructor; [auto|].
  rewrite Forall_forall. intros b Hb. rewrite Forall_forall in Hall.
  apply Hall, list_elem_of_fmap. eauto.
Qed.

Lemma sorted_lookup {A : Type} (R : relation A) `{!Reflexive R} (l : list A) :
  StronglySorted R l ->
  forall i j x y, (i <= j)%nat -> l !! i = Some x -> l !! j = Some y -> R x y.
Proof.
  induction 1 as [|a l Hs IH Hall]; intros i j x y Hij Hi Hj; [discriminate|].
  destruct i as [|i], j as [|j]; cbn in Hi, Hj; simplify_eq.
  - reflexivity.
  - rewrite Forall_forall in Hall. apply Hall. eapply list_elem_of_lookup_2; eauto.
  - lia.
  - apply (IH i j); [lia | assumption | assumption].
Qed.

Lemma bench_configs_sorted :
  StronglySorted (fun a b => lanes a <= lanes b) BENCH_CONFIGS.
Proof.
  unfold BENCH_CONFIGS.
  repeat (apply SSorted_cons; [|repeat constructor; cbn; lia]). constructor.
Qed.

(** How many lane changes a sorted list may still have, from its first
    lanes on. *)
Lemma transitions_bound (rs : list BenchResult) :
  StronglySorted (fun a b => lanes (config a) <= lanes (config b)) rs ->
  Forall (fun r => lanes (config r) = 1 \/ lanes (config r) = 4 \/ lanes (config r) = 16) rs ->
  match rs with
  | [] => True
  | r :: _ =>
      (transitions rs <= if decide (lanes (config r) = 1%Z) then 2
                         else if decide (lanes (config r) = 4%Z) then 1 else 0)%nat
  end.
Proof.
  induction rs as [|r rest IH]; [auto|]. intros Hs Hv.
  apply StronglySorted_cons in Hs as [Hall Hs]. apply Forall_cons in Hv as [Hr Hv].
  specialize (IH Hs Hv). cbn [transitions].
  destruct rest as [|next rest']; [cbn; repeat case_decide; lia|].
  apply Forall_cons in Hall as [Hle _]. apply Forall_cons in Hv as [Hn _].
  repeat case_decide; lia.
Qed.

(** X13. The results [main] collects are in the order of the sweep, each
    carrying the configuration it was collected for: their configurations
    form a sub-list of [BENCH_CONFIGS].  So rows of equal lanes are always
    contiguous in the list handed to the table, which has at most 15 rows and
    at most two lane changes. *)
Theorem collected_results_grouped (workspace : path) (w : World) (rs : list BenchResult) :
  (collect_all workspace BENCH_CONFIGS [] w).1 = Return rs ->
  config <$> rs `sublist_of` BENCH_CONFIGS /\
  grouped rs /\
  (length rs <= 15)%nat /\
  (transitions rs <= 2)%nat.
Proof.
  rewrite collect_all_value. intros Hg.
  apply (gather_sublist _ _ (outcome_config workspace (fs w))) in Hg as (rs' & -> & Hsub).
  cbn [app].
  assert (Hsorted : StronglySorted (fun a b => lanes (config a) <= lanes (config b)) rs').
  { apply (sorted_fmap_inv config (fun a b => lanes a <= lanes b)).
    eapply sublist_sorted; [exact Hsub | apply bench_configs_sorted]. }
  split; [exact Hsub|]. split; [|split].
  - intros i j k ri rj rk Hij Hjk Hi Hj Hk Heq.
    assert (Hrefl : Reflexive (fun a b : BenchResult => lanes (config a) <= lanes (config b)))
      by (intros a; cbn; lia).
    pose proof (sorted_lookup _ rs' Hsorted i j ri rj Hij Hi Hj) as H1.
    pose proof (sorted_lookup _ rs' Hsorted j k rj rk Hjk Hj Hk) as H2.
    cbn in H1, H2. lia.
  - apply sublist_length in Hsub. rewrite length_fmap in Hsub. exact Hsub.
  - assert (Hv : Forall (fun r => lanes (config r) = 1 \/ lanes (config r) = 4
                                  \/ lanes (config r) = 16) rs').
    { rewrite Forall_forall. intros r Hr.
      assert (Hin : config r ∈ BENCH_CONFIGS).
      { eapply elem_of_sublist; [|exact Hsub]. apply list_elem_of_fmap. eauto. }
      revert Hin. generalize (config r). intros c Hc. unfold BENCH_CONFIGS in Hc.
      rewrite !elem_of_cons in Hc.
      repeat (destruct Hc as [->|Hc]; [cbn; auto|]). inversion Hc. }
    pose proof (transitions_bound rs' Hsorted Hv) as Hb.
    destruct rs' as [|r rest]; [cbn; lia|]. repeat case_decide; lia.
Qed.

Lemma collected_results_grouped_witness :
  exists rs,
    (collect_all repo BENCH_CONFIGS [] scenario_world).1 = Return rs /\
    config <$> rs = [{| lanes := 1; iterations := 8192 |}] /\
    grouped rs /\ (transitions rs <= 2)%nat.
Proof.
  eexists. split; [vm_compute; reflexivity|]. split; [reflexivity|].
  match goal with |- grouped ?rs /\ _ =>
    destruct (collected_results_grouped repo scenario_world rs) as (_ & Hg & _ & Ht)
  end; [vm_compute; reflexivity|]. split; assumption.
Defined.

(** ** Where the report goes *)

(** The run of [main] up to the collection: either it returns 1 from the
    loop that runs the benchmarks, or it goes on to collect and report. *)
Lemma main_trace `{Host} (args : Args) (w : World) :
  exists ev1 w1,
    trace w1 = (trace w ++ ev1)%list /\
    writes ev1 = [] /\
    Forall is_benchmark_run ev1 /\
    (length (statuses ev1) <= 15)%nat /\
    (main args w = (Return 1, w1) \/
     main args w = collect_and_report args get_workspace_root w1).
Proof.
  destruct (main_cases args w) as [Hskip Hrun].
  destruct (skip_run args).
  - exists [], w. rewrite app_nil_r. repeat split; auto. cbn. lia.
  - specialize (Hrun eq_refl). cbv zeta in Hrun.
    destruct (run_benchmarks_events BENCH_CONFIGS
                (with_events w [Stdout "Running benchmarks..."]))
      as (ev & Htr & _ & Hwr & Hall & Hlen & _).
    cbn [with_events trace] in Htr. rewrite <- app_assoc in Htr.
    exists ([Stdout "Running benchmarks..."] ++ ev)%list,
      (run_benchmarks BENCH_CONFIGS (with_events w [Stdout "Running benchmarks..."])).2.
    split; [exact Htr|]. split; [exact Hwr|].
    split; [constructor; [exact I | exact Hall]|].
    split; [exact Hlen|].
    destruct Hrun as [[_ ->]|[_ ->]]; auto.
Qed.




(** X15. Every process the script starts is the benchmark command, started
    in the workspace root; the script starts at most 15 of them. *)
Theorem script_processes `{Host} (args : Args) (w : World) :
  exists events,
    trace (run_script args w).2 = (trace w ++ events)%list /\
    Forall is_benchmark_run events /\
    (length (statuses events) <= 15)%nat.
Proof.
  rewrite run_script_eq. cbn [snd].
  destruct (main_trace args w) as (ev1 & w1 & Htr & _ & Hall & Hlen & [-> | ->]).
  - exists ev1. auto.
  - destruct (reads_only_collect_and_report args get_workspace_root w1)
      as [(ev2 & -> & Hrep) _].
    destruct (reports_start_nothing ev2 Hrep) as [Hst _].
    exists (ev1 ++ ev2)%list. cbn [with_events trace]. rewrite Htr, <- app_assoc.
    split; [reflexivity|]. split.
    + apply Forall_app. split; [exact Hall|].
      eapply Forall_impl; [exact Hrep|]. intros [] Hev; cbn in *; auto. contradiction.
    + unfold statuses in *. rewrite omap_app, Hst, app_nil_r. exact Hlen.
Qed.

(** ** More on the directory names *)

(** X16. A directory that [find_benchmark_dir] returns is an entry of the
    result root of the phase asked for, is a directory, and has a name that
    starts with the prefix of the configuration: regular files and entries of
    other result roots are never returned. *)
Theorem find_benchmark_dir_sound (workspace : path) (phase : string) (c : BenchConfig)
    (w : World) (bench_dir : path) :
  (find_benchmark_dir workspace phase c w).1 = Return (Some bench_dir) ->
  exists entries name n,
    lookup_path (fs w) (criterion_root workspace phase) = Some (Dir entries) /\
    (name, n) ∈ entries /\
    is_dir n = true /\
    startswith name (dir_prefix c) = true /\
    bench_dir = criterion_root workspace phase // name.
Proof.
  unfold find_benchmark_dir, mbind, M_bind, mret, M_ret, path_exists, iterdir.
  unfold criterion_root. cbn beta iota zeta.
  destruct (negb _); [discriminate|].
  destruct (lookup_path _ _) as [[data|entries]|]; try discriminate.
  cbn [fst]. intros [= Hfirst]. exists entries.
  induction entries as [|[name n] rest IH]; [discriminate|].
  cbn [first_match] in Hfirst.
  destruct (is_dir n && startswith name (dir_prefix c)) eqn:Hm.
  - injection Hfirst as <-. apply andb_prop in Hm as [Hd Hs].
    exists name, n. split; [reflexivity|]. split; [left|]. auto.
  - destruct (IH Hfirst) as (name' & n' & _ & Hin & Hrest).
    exists name', n'. split; [reflexivity|]. split; [right; exact Hin | exact Hrest].
Qed.

Lemma find_benchmark_dir_sound_witness :
  exists entries name n,
    lookup_path (fs (world_of (repo_tree lanes1_first [] [])))
      (criterion_root repo "witness_generation") = Some (Dir entries) /\
    (name, n) ∈ entries /\
    is_dir n = true /\
    startswith name (dir_prefix {| lanes := 4; iterations := 8192 |}) = true /\
    criterion_root repo "witness_generation" // "iterations_8192_lanes_4_run"
      = criterion_root repo "witness_generation" // name.
Proof.
  apply (find_benchmark_dir_sound repo "witness_generation"
           {| lanes := 4; iterations := 8192 |} (world_of (repo_tree lanes1_first [] []))).
  vm_compute. reflexivity.
Defined.

Lemma pretty_N_go_free (x : N) (s : string) :
  free_of "_" s -> free_of "_" (pretty_N_go x s).
Proof.
  revert s. induction (N.lt_wf_0 x) as [x _ IH]; intros s Hs.
  assert (x = 0 \/ 0 < x)%N as [->|Hx] by lia.
  - rewrite pretty_N_go_0. exact Hs.
  - rewrite pretty_N_go_step by assumption. apply IH.
    + apply N.div_lt; lia.
    + split; [|exact Hs]. unfold pretty_N_char. repeat case_match; discriminate.
Qed.

(** A numeral holds no underscore. *)
Lemma str_int_free (n : Z) : free_of "_" (str_int n).
Proof.
  assert (Hpos : forall p, free_of "_" (pretty (N.pos p))).
  { intros p. unfold pretty, pretty_N. rewrite decide_False by discriminate.
    apply pretty_N_go_free. exact I. }
  unfold str_int, pretty, pretty_Z. destruct n as [|p|p].
  - cbn. split; [discriminate | exact I].
  - apply Hpos.
  - split; [discriminate | apply Hpos].
Qed.

Lemma prefix_cons_inv (x : ascii) (s name : string) :
  String.prefix (String x s) name = true ->
  exists name', name = String x name' /\ String.prefix s name' = true.
Proof.
  destruct name as [|z name]; cbn; [discriminate|].
  destruct (ascii_dec x z) as [->|]; [eauto | discriminate].
Qed.

(** Two underscore-free strings, each followed by an underscore, that
    start the same string are equal, and so is what follows them. *)
Lemma underscore_delimited (a b r r' name : string) :
  free_of "_" a -> free_of "_" b ->
  String.prefix (a +:+ "_" +:+ r) name = true ->
  String.prefix (b +:+ "_" +:+ r') name = true ->
  a = b /\ exists rest, String.prefix r rest = true /\ String.prefix r' rest = true.
Proof.
  revert b name. induction a as [|x a IH]; intros [|y b] name Ha Hb H1 H2.
  - change (String.prefix (String "_" r) name = true) in H1.
    change (String.prefix (String "_" r') name = true) in H2.
    apply prefix_cons_inv in H1 as (rest & -> & H1).
    apply prefix_cons_inv in H2 as (rest2 & [= <-] & H2). eauto.
  - exfalso.
    change (String.prefix (String "_" r) name = true) in H1.
    change (String.prefix (String y (b +:+ "_" +:+ r')) name = true) in H2.
    apply prefix_cons_inv in H1 as (rest & -> & H1).
    apply prefix_cons_inv in H2 as (rest2 & [= Hc _] & H2).
    destruct Hb as [Hy _]. congruence.
  - exfalso.
    change (String.prefix (String x (a +:+ "_" +:+ r)) name = true) in H1.
    change (String.prefix (String "_" r') name = true) in H2.
    apply prefix_cons_inv in H1 as (rest & -> & H1).
    apply prefix_cons_inv in H2 as (rest2 & [= Hc _] & H2).
    destruct Ha as [Hx _]. congruence.
  - change (String.prefix (String x (a +:+ "_" +:+ r)) name = true) in H1.
    change (String.prefix (String y (b +:+ "_" +:+ r')) name = true) in H2.
    apply prefix_cons_inv in H1 as (rest & -> & H1).
    apply prefix_cons_inv in H2 as (rest2 & [= <- <-] & H2).
    destruct Ha as [_ Ha], Hb as [_ Hb].
    destruct (IH b rest Ha Hb H1 H2) as [-> Hrest]. auto.
Qed.

Lemma prefix_strip (a b name : string) :
  String.prefix (a +:+ b) name = true ->
  exists rest, name = a +:+ rest /\ String.prefix b rest = true.
Proof.
  revert name. induction a as [|x a IH]; intros name H.
  - exists name. auto.
  - change (String.prefix (String x (a +:+ b)) name = true) in H.
    apply prefix_cons_inv in H as (name' & -> & H).
    destruct (IH name' H) as (rest & -> & Hrest). exists rest. auto.
Qed.

(** Two numerals, each followed by an underscore, that start the same
    string are numerals of the same number. *)
Lemma numeral_delimited (n m : Z) (r r' name : string) :
  String.prefix (str_int n +:+ "_" +:+ r) name = true ->
  String.prefix (str_int m +:+ "_" +:+ r') name = true ->
  n = m /\ exists rest, String.prefix r rest = true /\ String.prefix r' rest = true.
Proof.
  intros H1 H2.
  destruct (underscore_delimited _ _ _ _ _ (str_int_free n) (str_int_free m) H1 H2)
    as [Heq Hrest].
  split; [|exact Hrest]. apply (inj pretty). exact Heq.
Qed.

(** X17. Two configurations of the same kind never share a directory: when
    a name starts with the prefixes of two single-lane configurations, or of
    two multi-lane configurations, the two are the same configuration.  (A
    single-lane and a multi-lane configuration can share one, as seen for
    (1, 8192) and (4, 8192).) *)
Theorem dir_prefix_exclusive (c1 c2 : BenchConfig) (name : string) :
  (lanes c1 = 1 <-> lanes c2 = 1) ->
  startswith name (dir_prefix c1) = true ->
  startswith name (dir_prefix c2) = true ->
  c1 = c2.
Proof.
  unfold startswith, dir_prefix. intros Hkind.
  destruct c1 as [l1 i1], c2 as [l2 i2]. cbn [lanes iterations] in *.
  destruct (decide (l1 = 1)) as [->|Hl1]; destruct (decide (l2 = 1)) as [->|Hl2];
    try (exfalso; tauto); intros H1 H2;
    apply prefix_strip in H1 as (rest & -> & H1);
    apply prefix_strip in H2 as (rest2 & Heq & H2);
    apply app_string_inj_l in Heq; subst rest2.
  - change (String.prefix (str_int i1 +:+ "_" +:+ "") rest = true) in H1.
    change (String.prefix (str_int i2 +:+ "_" +:+ "") rest = true) in H2.
    destruct (numeral_delimited _ _ _ _ _ H1 H2) as [-> _]. reflexivity.
  - change (String.prefix (str_int i1 +:+ "_" +:+ "lanes_" +:+ str_int l1 +:+ "_" +:+ "")
              rest = true) in H1.
    change (String.prefix (str_int i2 +:+ "_" +:+ "lanes_" +:+ str_int l2 +:+ "_" +:+ "")
              rest = true) in H2.
    destruct (numeral_delimited _ _ _ _ _ H1 H2) as [-> (rest' & H1' & H2')].
    apply prefix_strip in H1' as (tail & -> & H1').
    apply prefix_strip in H2' as (tail2 & Heq & H2').
    apply app_string_inj_l in Heq. subst tail2.
    destruct (numeral_delimited _ _ _ _ _ H1' H2') as [-> _]. reflexivity.
Qed.

Lemma dir_prefix_exclusive_witness :
  {| lanes := 4; iterations := 8192 |} = {| lanes := 2 * 2; iterations := 2 ^ 13 |}.
Proof.
  apply (dir_prefix_exclusive _ _ "iterations_8192_lanes_4_run").
  - cbn. split; discriminate.
  - vm_compute. reflexivity.
  - vm_compute. reflexivity.
Defined.
